(** * Blog: a shallow embedding of main.py

    The Flask application of main.py keeps three tables (users, blog_posts,
    comments) in an SQLite database through SQLAlchemy, a login session through
    flask_login, and serves ten routes.  This file embeds the tables, the
    session and every view function, and states the properties of the
    authentication, authorization and content model over them.

    Conventions
    - a table is the list of its rows in rowid order ([Model.query.all()]);
    - [db.session.add(x); db.session.commit()] is one atomic insert that
      checks the UNIQUE constraints of the table and assigns the rowid;
    - a view function is a computation in [Py]: it reads and writes the
      application state and either returns a response or raises;
    - the application state is the database and the session of the one
      client whose requests are followed;
    - what main.py imports from forms.py (the four form classes), from
      werkzeug.security (hashing) and the values the environment supplies
      during a request (the salt, today's date) are parameters. *)

From Stdlib Require Import ZArith String List Bool Lia.
Import ListNotations.
Open Scope Z_scope.
Open Scope string_scope.

Set Implicit Arguments.

(* ------------------------------------------------------------------ *)
(** * DB tables *)

Module User.
(** [class User(UserMixin, db.Model)], table "users". *)
Record t := mk {
  id : Z;
  email : string;
  password : string;
  name : string
}.
End User.

Module BlogPost.
(** [class BlogPost(db.Model)], table "blog_posts"; [author_id] is the
    nullable foreign key behind the [author] relationship. *)
Record t := mk {
  id : Z;
  author_id : option Z;
  title : string;
  subtitle : string;
  date : string;
  body : string;
  img_url : string
}.
End BlogPost.

Module Comments.
(** [class Comments(db.Model)], table "comments"; [author_id] and [post_id]
    are the nullable foreign keys behind [comment_author] and [post]. *)
Record t := mk {
  id : Z;
  author_id : option Z;
  post_id : option Z;
  text : string
}.
End Comments.

(** The database file blog.db. *)
Record DB := mkDB {
  users : list User.t;
  blog_posts : list BlogPost.t;
  comments : list Comments.t
}.

(** What flask keeps in the client's session: the id flask_login binds
    ([login_user] / [logout_user]) and the queue of flashed messages. *)
Record Session := mkSession {
  user_id : option Z;
  flashes : list string
}.

Record App := mkApp {
  db : DB;
  session : Session
}.

(** [db.create_all()] on a fresh file, and a fresh client. *)
Definition create_all : DB := mkDB [] [] [].
Definition initial : App := mkApp create_all (mkSession None []).

(* ------------------------------------------------------------------ *)
(** * Exceptions, responses and the monad of view functions *)

Inductive Exn :=
| HTTPException (code : Z)            (* abort(code), and the router's 405 *)
| AttributeError (attribute : string) (* attribute looked up on None or on the anonymous user *)
| IntegrityError (constraint : string)(* a UNIQUE constraint failed at commit *)
| UnmappedInstanceError               (* db.session.delete(None) *)
| OverflowError.                      (* an int too large for an SQLite INTEGER *)

Inductive Result (A : Type) :=
| Ok (a : A)
| Raise (e : Exn).
Arguments Ok {A} a.
Arguments Raise {A} e.

Definition Py (A : Type) : Type := App -> Result A * App.

Definition ret {A} (a : A) : Py A := fun st => (Ok a, st).
Definition raise {A} (e : Exn) : Py A := fun st => (Raise e, st).
Definition bind {A B} (m : Py A) (k : A -> Py B) : Py B :=
  fun st =>
    match m st with
    | (Ok a, st') => k a st'
    | (Raise e, st') => (Raise e, st')
    end.
Definition gets {A} (f : App -> A) : Py A := fun st => (Ok (f st), st).
Definition modify (f : App -> App) : Py unit := fun st => (Ok tt, f st).

Notation "x <- m ;; k" := (bind m (fun x => k))
  (at level 61, m at next level, right associativity).
Notation "m ;;; k" := (bind m (fun _ => k))
  (at level 61, right associativity).

Definition abort {A} (code : Z) : Py A := raise (HTTPException code).

(** [url_for] targets used by the redirects. *)
Inductive Endpoint :=
| url_get_all_posts
| url_login
| url_show_post (post_id : Z).

Inductive Method := GET | POST.

Definition Method_eqb (a b : Method) : bool :=
  match a, b with
  | GET, GET | POST, POST => true
  | _, _ => false
  end.

(* ------------------------------------------------------------------ *)
(** * Forms (forms.py) *)

(** The fields main.py reads from each form. *)
Record RegisterFormData := mkRegisterForm {
  rf_email : string;
  rf_password : string;
  rf_name : string
}.

Record LoginFormData := mkLoginForm {
  lf_email : string;
  lf_password : string
}.

Record CommentFormData := mkCommentForm {
  cf_comment : string
}.

Record CreatePostFormData := mkCreatePostForm {
  pf_title : string;
  pf_subtitle : string;
  pf_img_url : string;
  pf_body : string
}.

(** A request as a view sees it: the HTTP method, the submitted form, and
    the two values the environment supplies while the view runs (the random
    salt of [generate_password_hash], [date.today()] already formatted). *)
Record Request (F : Type) := mkRequest {
  method : Method;
  form : F;
  salt : string;
  today : string
}.

(** The template a view renders, with the context it passes. *)
Inductive Page :=
| index_html (all_posts : list BlogPost.t)
| register_html (form : RegisterFormData)
| login_html (form : LoginFormData)
| post_html (post : option BlogPost.t) (comments : list Comments.t)
            (comment_form : CommentFormData)
| about_html
| contact_html
| make_post_html (form : CreatePostFormData).

Inductive Response :=
| render_template (page : Page)
| redirect (target : Endpoint).

(* ------------------------------------------------------------------ *)
(** * Queries and commits *)

(** SQLite's rowid for an [INTEGER PRIMARY KEY] column: one more than the
    largest rowid in the table, 1 in an empty table. *)
Definition next_rowid (ids : list Z) : Z := fold_right Z.max 0 ids + 1.

Definition User_query_get (i : Z) (d : DB) : option User.t :=
  find (fun u => Z.eqb (User.id u) i) (users d).

Definition User_query_filter_by_email_first (e : string) (d : DB) : option User.t :=
  find (fun u => String.eqb (User.email u) e) (users d).

Definition BlogPost_query_all (d : DB) : list BlogPost.t := blog_posts d.

Definition BlogPost_query_get (i : Z) (d : DB) : option BlogPost.t :=
  find (fun p => Z.eqb (BlogPost.id p) i) (blog_posts d).

Definition Comments_query_all (d : DB) : list Comments.t := comments d.

(** An SQLite INTEGER has 64 bits: binding a Python int outside
    [-2^63, 2^63) to a statement raises OverflowError. *)
Definition fits_INTEGER (i : Z) : bool := (- 2 ^ 63 <=? i)%Z && (i <? 2 ^ 63)%Z.
Arguments fits_INTEGER : simpl never.

Definition set_db (d : DB) (st : App) : App := mkApp d (session st).
Definition set_session (s : Session) (st : App) : App := mkApp (db st) s.

(** [db.session.add(new_user); db.session.commit()]: [email] is UNIQUE. *)
Definition commit_new_user (email password name : string) : Py User.t :=
  fun st =>
    let d := db st in
    if existsb (fun u => String.eqb (User.email u) email) (users d)
    then (Raise (IntegrityError "users.email"), st)
    else
      let u := User.mk (next_rowid (map User.id (users d))) email password name in
      (Ok u, set_db (mkDB (users d ++ [u]) (blog_posts d) (comments d)) st).

(** [db.session.add(new_post); db.session.commit()]: [title] is UNIQUE. *)
Definition commit_new_post (author : option Z) (title subtitle date body img_url : string)
  : Py BlogPost.t :=
  fun st =>
    let d := db st in
    if existsb (fun p => String.eqb (BlogPost.title p) title) (blog_posts d)
    then (Raise (IntegrityError "blog_posts.title"), st)
    else
      let p := BlogPost.mk (next_rowid (map BlogPost.id (blog_posts d)))
                           author title subtitle date body img_url in
      (Ok p, set_db (mkDB (users d) (blog_posts d ++ [p]) (comments d)) st).

(** [db.session.add(new_comment); db.session.commit()]. *)
Definition commit_new_comment (author post : option Z) (text : string) : Py Comments.t :=
  fun st =>
    let d := db st in
    let c := Comments.mk (next_rowid (map Comments.id (comments d))) author post text in
    (Ok c, set_db (mkDB (users d) (blog_posts d) (comments d ++ [c])) st).

(** The commit of [edit_post]: the row of [post] gets the new values of the
    five assigned attributes; [title] is UNIQUE among the other rows. *)
Definition commit_post_update (post : BlogPost.t) (author : option Z)
           (title subtitle img_url body : string) : Py BlogPost.t :=
  fun st =>
    let d := db st in
    if existsb (fun p => negb (Z.eqb (BlogPost.id p) (BlogPost.id post))
                         && String.eqb (BlogPost.title p) title) (blog_posts d)
    then (Raise (IntegrityError "blog_posts.title"), st)
    else
      let p' := BlogPost.mk (BlogPost.id post) author title subtitle
                            (BlogPost.date post) body img_url in
      (Ok p',
       set_db (mkDB (users d)
                    (map (fun p => if Z.eqb (BlogPost.id p) (BlogPost.id post) then p' else p)
                         (blog_posts d))
                    (comments d)) st).

(** [BlogPost.comments] has no delete cascade: when the post is deleted the
    ORM keeps its comments and sets their [post_id] to NULL. *)
Definition detach_comment (post : Z) (c : Comments.t) : Comments.t :=
  match Comments.post_id c with
  | Some i =>
      if Z.eqb i post
      then Comments.mk (Comments.id c) (Comments.author_id c) None (Comments.text c)
      else c
  | None => c
  end.

(** [db.session.delete(post_to_delete); db.session.commit()]. *)
Definition commit_delete_post (post_to_delete : option BlogPost.t) : Py unit :=
  match post_to_delete with
  | None => raise UnmappedInstanceError
  | Some p =>
      modify (fun st =>
        let d := db st in
        set_db (mkDB (users d)
                     (filter (fun q => negb (Z.eqb (BlogPost.id q) (BlogPost.id p))) (blog_posts d))
                     (map (detach_comment (BlogPost.id p)) (comments d))) st)
  end.

(** [BlogPost.query.get(post_id)] as a view runs it, with the route's
    [post_id] as the bound parameter: the row with that id, [None] when the
    table has none, OverflowError when the id does not fit an SQLite INTEGER.
    The table of an SQLite file holds no id outside that range, so a stored
    row is always found. *)
Definition BlogPost_query_get_bound (post_id : Z) : Py (option BlogPost.t) :=
  fun st =>
    match BlogPost_query_get post_id (db st) with
    | Some post => (Ok (Some post), st)
    | None =>
        if fits_INTEGER post_id then (Ok None, st) else (Raise OverflowError, st)
    end.

(* ------------------------------------------------------------------ *)
(** * flask_login *)

(** [load_user], the [user_loader] callback. *)
Definition load_user (user_id : Z) (d : DB) : option User.t :=
  User_query_get user_id d.

(** [current_user]: the user the session's id loads, [None] for the
    anonymous user (no id in the session, or no such row). *)
Definition current_user_of (st : App) : option User.t :=
  match user_id (session st) with
  | Some i => load_user i (db st)
  | None => None
  end.

Definition current_user : Py (option User.t) := gets current_user_of.

Definition login_user (user : User.t) : Py unit :=
  modify (fun st => set_session (mkSession (Some (User.id user)) (flashes (session st))) st).

Definition logout_user : Py unit :=
  modify (fun st => set_session (mkSession None (flashes (session st))) st).

Definition flash (message : string) : Py unit :=
  modify (fun st =>
    set_session (mkSession (user_id (session st)) (flashes (session st) ++ [message])) st).

Definition View (F : Type) : Type := Request F -> Py Response.

(** [@login_required]: the login manager has no [login_view], so
    [unauthorized()] is [abort(401)]. *)
Definition login_required {F} (func : View F) : View F :=
  fun request =>
    u <- current_user ;;
    match u with
    | None => abort 401
    | Some _ => func request
    end.

(* ------------------------------------------------------------------ *)
(** * Wrappers *)

(** The test of [admin_only], [current_user.id != 1], read positively. *)
Definition is_administrator (u : User.t) : bool := Z.eqb (User.id u) 1.

(** [admin_only(f)]: the anonymous user has no [id] attribute. *)
Definition admin_only {F} (f : View F) : View F :=
  fun request =>
    u <- current_user ;;
    match u with
    | None => raise (AttributeError "id")
    | Some u =>
        if negb (is_administrator u)
        then abort 403
        else f request
    end.

(** flask_wtf: a form is submitted by POST (of the two methods modelled). *)
Definition is_submitted {F} (request : Request F) : bool :=
  Method_eqb (method request) POST.

Definition validate_on_submit {F} (validate : F -> bool) (request : Request F) : bool :=
  is_submitted request && validate (form request).

(* ------------------------------------------------------------------ *)
(** * The administrator, as the specification words it *)

(** The smallest id in the users table: the id of the first-ever-registered
    user.  [admin_only] does not compute it; it compares with the constant 1
    ([is_administrator]).  The two are related in [admin_is_first_registered]. *)
Definition min_user_id (us : list User.t) : option Z :=
  match map User.id us with
  | [] => None
  | i :: ids => Some (fold_right Z.min i ids)
  end.

(** The ids SQLite hands out in a table that only grows: 1, 2, ..., n. *)
Definition rowids (n : nat) : list Z := map Z.of_nat (seq 1 n).

(** A stored comment keeps its identity, author and text when only its
    target may have been set to NULL. *)
Definition same_comment_up_to_target (c c' : Comments.t) : Prop :=
  Comments.id c' = Comments.id c /\
  Comments.author_id c' = Comments.author_id c /\
  Comments.text c' = Comments.text c /\
  (Comments.post_id c' = Comments.post_id c \/ Comments.post_id c' = None).

(* ------------------------------------------------------------------ *)
(** * Routing and handlers *)

(** What main.py imports and this file does not define: the validators of
    the four form classes of forms.py, the value its [edit_form.author.data]
    gives, and the two functions of werkzeug.security. *)
Class Imported := {
  RegisterForm_validate : RegisterFormData -> bool;
  LoginForm_validate : LoginFormData -> bool;
  CommentForm_validate : CommentFormData -> bool;
  CreatePostForm_validate : CreatePostFormData -> bool;
  (** what [post.author = edit_form.author.data] stores in [author_id], or
      the exception it raises when the form has no such field or its data is
      not a mapped [User] *)
  edit_form_author_data : CreatePostFormData -> Result (option Z);
  (** takes the password and the salt *)
  generate_password_hash : string -> string -> string;
  check_password_hash : string -> string -> bool
}.

(** ** The URL map built by the [@app.route] lines *)

Inductive Rule :=
| rule_get_all_posts              (* '/' *)
| rule_register                   (* '/register' *)
| rule_login                      (* '/login' *)
| rule_logout                     (* '/logout' *)
| rule_show_post (post_id : Z)    (* '/post/<int:post_id>' *)
| rule_about                      (* '/about' *)
| rule_contact                    (* '/contact' *)
| rule_add_new_post               (* '/new-post' *)
| rule_edit_post (post_id : Z)    (* '/edit-post/<int:post_id>' *)
| rule_delete_post (post_id : Z). (* '/delete/<int:post_id>' *)

(** [methods=["GET", "POST"]] where the route line says so, GET otherwise. *)
Definition methods (r : Rule) : list Method :=
  match r with
  | rule_register | rule_login | rule_show_post _ | rule_add_new_post => [GET; POST]
  | rule_get_all_posts | rule_logout | rule_about | rule_contact
  | rule_edit_post _ | rule_delete_post _ => [GET]
  end.

(** The body of a request, as each form class reads it. *)
Record FormData := mkFormData {
  as_RegisterForm : RegisterFormData;
  as_LoginForm : LoginFormData;
  as_CommentForm : CommentFormData;
  as_CreatePostForm : CreatePostFormData
}.

Record HTTPRequest := mkHTTP {
  http_method : Method;
  http_rule : Rule;
  http_form : FormData;
  http_salt : string;
  http_today : string
}.

Definition request_for {F} (r : HTTPRequest) (read : FormData -> F) : Request F :=
  mkRequest (http_method r) (read (http_form r)) (http_salt r) (http_today r).

(** ** The view functions *)

Section Views.

Context {imported : Imported}.

Definition get_all_posts : View unit :=
  fun request =>
    posts <- gets (fun st => BlogPost_query_all (db st)) ;;
    ret (render_template (index_html posts)).

Definition register : View RegisterFormData :=
  fun request =>
    let register_form := form request in
    if validate_on_submit RegisterForm_validate request then
      new_user <- commit_new_user
                    (rf_email register_form)
                    (generate_password_hash (rf_password register_form) (salt request))
                    (rf_name register_form) ;;
      login_user new_user ;;;
      ret (redirect url_get_all_posts)
    else ret (render_template (register_html register_form)).

Definition login : View LoginFormData :=
  fun request =>
    let logged := form request in
    if validate_on_submit LoginForm_validate request then
      let email := lf_email logged in
      let password := lf_password logged in
      user <- gets (fun st => User_query_filter_by_email_first email (db st)) ;;
      match user with
      | None => raise (AttributeError "password")
      | Some user =>
          if check_password_hash (User.password user) password then
            login_user user ;;;
            ret (redirect url_get_all_posts)
          else
            flash "Try again please" ;;;
            ret (redirect url_login)
      end
    else ret (render_template (login_html logged)).

Definition logout : View unit :=
  fun request =>
    logout_user ;;;
    ret (redirect url_get_all_posts).

(** [Comments(text=..., comment_author=current_user, post=requested_post)]:
    the anonymous user is not a mapped instance, so setting the relationship
    raises; a missing post is [None] and leaves [post_id] NULL. *)
Definition new_Comments (text : string) (requested_post : option BlogPost.t)
  : Py (option Z * option Z * string) :=
  u <- current_user ;;
  match u with
  | None => raise (AttributeError "_sa_instance_state")
  | Some u => ret (Some (User.id u), option_map BlogPost.id requested_post, text)
  end.

Definition show_post (post_id : Z) : View CommentFormData :=
  fun request =>
    requested_post <- BlogPost_query_get_bound post_id ;;
    let comment_form := form request in
    all_comments <- gets (fun st => Comments_query_all (db st)) ;;
    (if validate_on_submit CommentForm_validate request then
       new_comment <- new_Comments (cf_comment comment_form) requested_post ;;
       let '(author, post, text) := new_comment in
       commit_new_comment author post text ;;;
       ret tt
     else ret tt) ;;;
    ret (render_template (post_html requested_post all_comments comment_form)).

Definition about : View unit :=
  fun request => ret (render_template about_html).

Definition contact : View unit :=
  fun request => ret (render_template contact_html).

(** The function under the decorators ([__wrapped__]). *)
Definition add_new_post__wrapped : View CreatePostFormData :=
  fun request =>
    let form := form request in
    if validate_on_submit CreatePostForm_validate request then
      u <- current_user ;;
      match u with
      | None => raise (AttributeError "_sa_instance_state")
      | Some u =>
          commit_new_post (Some (User.id u)) (pf_title form) (pf_subtitle form)
                          (today request) (pf_body form) (pf_img_url form) ;;;
          ret (redirect url_get_all_posts)
      end
    else ret (render_template (make_post_html form)).

Definition add_new_post : View CreatePostFormData :=
  login_required (admin_only add_new_post__wrapped).

(** [CreatePostForm(title=post.title, ...)]: the keyword values fill the
    form when the request submits none. *)
Definition prefilled (request : Request CreatePostFormData) (post : BlogPost.t)
  : CreatePostFormData :=
  if is_submitted request then form request
  else mkCreatePostForm (BlogPost.title post) (BlogPost.subtitle post)
                        (BlogPost.img_url post) (BlogPost.body post).

Definition edit_post__wrapped (post_id : Z) : View CreatePostFormData :=
  fun request =>
    post <- BlogPost_query_get_bound post_id ;;
    match post with
    | None => raise (AttributeError "title")
    | Some post =>
        let edit_form := prefilled request post in
        if validate_on_submit CreatePostForm_validate request then
          match edit_form_author_data edit_form with
          | Raise e => raise e
          | Ok author =>
              commit_post_update post author (pf_title edit_form) (pf_subtitle edit_form)
                                 (pf_img_url edit_form) (pf_body edit_form) ;;;
              ret (redirect (url_show_post (BlogPost.id post)))
          end
        else ret (render_template (make_post_html edit_form))
    end.

Definition edit_post (post_id : Z) : View CreatePostFormData :=
  login_required (admin_only (edit_post__wrapped post_id)).

Definition delete_post__wrapped (post_id : Z) : View unit :=
  fun request =>
    post_to_delete <- BlogPost_query_get_bound post_id ;;
    commit_delete_post post_to_delete ;;;
    ret (redirect url_get_all_posts).

Definition delete_post (post_id : Z) : View unit :=
  login_required (admin_only (delete_post__wrapped post_id)).

(** Flask's dispatch: 405 when the rule does not allow the method, the
    view function of the rule otherwise. *)
Definition dispatch_request (r : HTTPRequest) : Py Response :=
  if existsb (Method_eqb (http_method r)) (methods (http_rule r)) then
    match http_rule r with
    | rule_get_all_posts => get_all_posts (request_for r (fun _ => tt))
    | rule_register => register (request_for r as_RegisterForm)
    | rule_login => login (request_for r as_LoginForm)
    | rule_logout => logout (request_for r (fun _ => tt))
    | rule_show_post post_id => show_post post_id (request_for r as_CommentForm)
    | rule_about => about (request_for r (fun _ => tt))
    | rule_contact => contact (request_for r (fun _ => tt))
    | rule_add_new_post => add_new_post (request_for r as_CreatePostForm)
    | rule_edit_post post_id => edit_post post_id (request_for r as_CreatePostForm)
    | rule_delete_post post_id => delete_post post_id (request_for r (fun _ => tt))
    end
  else abort 405.

(** The states the application reaches from a fresh database by serving
    requests. *)
Inductive reachable : App -> Prop :=
| reachable_initial : reachable initial
| reachable_request : forall st r,
    reachable st -> reachable (snd (dispatch_request r st)).

End Views.

(* ------------------------------------------------------------------ *)
(** * Sample inhabitants of the parameters, for the worked examples *)

Definition accept_all {F : Type} (_ : F) : bool := true.
Definition no_author_field (_ : CreatePostFormData) : Result (option Z) :=
  Raise (AttributeError "author").
Definition sample_hash (password salt : string) : string := salt ++ "$" ++ password.
Definition sample_check (pwhash password : string) : bool :=
  String.eqb (sample_hash password "s") pwhash.

Definition sample_imports : Imported := {|
  RegisterForm_validate := accept_all;
  LoginForm_validate := accept_all;
  CommentForm_validate := accept_all;
  CreatePostForm_validate := accept_all;
  edit_form_author_data := no_author_field;
  generate_password_hash := sample_hash;
  check_password_hash := sample_check
|}.

(** ** A worked scenario

    Alice registers first, then Bob; Alice logs in and publishes "Hello";
    Bob logs in and comments on it; Alice logs in again. *)

Definition body_of (r : RegisterFormData) (l : LoginFormData) (c : CommentFormData)
           (p : CreatePostFormData) : FormData := mkFormData r l c p.

Definition no_register : RegisterFormData := mkRegisterForm "" "" "".
Definition no_login : LoginFormData := mkLoginForm "" "".
Definition no_comment : CommentFormData := mkCommentForm "".
Definition no_post : CreatePostFormData := mkCreatePostForm "" "" "" "".

Definition http (m : Method) (rule : Rule) (f : FormData) : HTTPRequest :=
  mkHTTP m rule f "s" "November 04, 2026".

Definition register_as (email password name : string) : HTTPRequest :=
  http POST rule_register
       (body_of (mkRegisterForm email password name) no_login no_comment no_post).

Definition login_as (email password : string) : HTTPRequest :=
  http POST rule_login (body_of no_register (mkLoginForm email password) no_comment no_post).

Definition comment_on (post_id : Z) (text : string) : HTTPRequest :=
  http POST (rule_show_post post_id)
       (body_of no_register no_login (mkCommentForm text) no_post).

Definition publish (title subtitle img_url body : string) : HTTPRequest :=
  http POST rule_add_new_post
       (body_of no_register no_login no_comment
                (mkCreatePostForm title subtitle img_url body)).

Definition serve (r : HTTPRequest) (st : App) : App :=
  snd (dispatch_request (imported := sample_imports) r st).

(** Alice and Bob are registered; Bob, the last to register, is logged in. *)
Definition two_users : App :=
  serve (register_as "bob@x.com" "pw2" "Bob")
        (serve (register_as "alice@x.com" "pw1" "Alice") initial).

(** Alice has published "Hello" and Bob has commented on it; Bob is logged in. *)
Definition bob_commented : App :=
  serve (comment_on 1 "Nice post")
        (serve (login_as "bob@x.com" "pw2")
               (serve (publish "Hello" "first" "img.png" "text")
                      (serve (login_as "alice@x.com" "pw1") two_users))).

(** The same, with Alice logged in again. *)
Definition alice_back : App := serve (login_as "alice@x.com" "pw1") bob_commented.

(** The same database, seen by a client that is not logged in. *)
Definition anonymous_visitor : App :=
  serve (http GET rule_logout (body_of no_register no_login no_comment no_post))
        bob_commented.

(** The rows of the scenario. *)
Definition alice : User.t := User.mk 1 "alice@x.com" "s$pw1" "Alice".
Definition bob : User.t := User.mk 2 "bob@x.com" "s$pw2" "Bob".
Definition hello : BlogPost.t :=
  BlogPost.mk 1 (Some 1) "Hello" "first" "November 04, 2026" "text" "img.png".

(* ------------------------------------------------------------------ *)
(** * What one request can do, and what every state keeps *)

(** The five ways a request changes the application state: it touches the
    session only (binding a stored user, unbinding, flashing), or it commits
    one of the four writes of main.py: a new user ([register]), a new post
    ([add_new_post], behind the two decorators), a new comment ([show_post])
    or the deletion of a post ([delete_post], behind the two decorators). *)
Inductive transition (st : App) : App -> Prop :=
| tr_session : forall s,
    (user_id s = user_id (session st) \/ user_id s = None \/
     exists u, In u (users (db st)) /\ user_id s = Some (User.id u)) ->
    transition st (mkApp (db st) s)
| tr_register : forall u,
    User.id u = next_rowid (map User.id (users (db st))) ->
    (forall v, In v (users (db st)) -> User.email v <> User.email u) ->
    transition st
      (mkApp (mkDB (users (db st) ++ [u]) (blog_posts (db st)) (comments (db st)))
             (mkSession (Some (User.id u)) (flashes (session st))))
| tr_publish : forall admin p,
    current_user_of st = Some admin ->
    is_administrator admin = true ->
    BlogPost.id p = next_rowid (map BlogPost.id (blog_posts (db st))) ->
    BlogPost.author_id p = Some (User.id admin) ->
    (forall q, In q (blog_posts (db st)) -> BlogPost.title q <> BlogPost.title p) ->
    transition st
      (mkApp (mkDB (users (db st)) (blog_posts (db st) ++ [p]) (comments (db st)))
             (session st))
| tr_comment : forall u c,
    current_user_of st = Some u ->
    Comments.id c = next_rowid (map Comments.id (comments (db st))) ->
    Comments.author_id c = Some (User.id u) ->
    (Comments.post_id c = None \/
     exists p, In p (blog_posts (db st)) /\ Comments.post_id c = Some (BlogPost.id p)) ->
    transition st
      (mkApp (mkDB (users (db st)) (blog_posts (db st)) (comments (db st) ++ [c]))
             (session st))
| tr_delete : forall admin p,
    current_user_of st = Some admin ->
    is_administrator admin = true ->
    In p (blog_posts (db st)) ->
    transition st
      (mkApp (mkDB (users (db st))
                   (filter (fun q => negb (Z.eqb (BlogPost.id q) (BlogPost.id p)))
                           (blog_posts (db st)))
                   (map (detach_comment (BlogPost.id p)) (comments (db st))))
             (session st)).

(** The integrity conditions of the three tables and of the session. *)
Record consistent (st : App) : Prop := mkConsistent {
  user_ids : map User.id (users (db st)) = rowids (length (users (db st)));
  user_emails : NoDup (map User.email (users (db st)));
  session_user : forall i, user_id (session st) = Some i ->
                           In i (map User.id (users (db st)));
  post_ids : NoDup (map BlogPost.id (blog_posts (db st)));
  post_titles : NoDup (map BlogPost.title (blog_posts (db st)));
  post_authors : forall p, In p (blog_posts (db st)) ->
                   BlogPost.author_id p = Some 1 /\
                   exists u, In u (users (db st)) /\ User.id u = 1;
  comment_ids : NoDup (map Comments.id (comments (db st)));
  comment_authors : forall c, In c (comments (db st)) ->
                      exists u, In u (users (db st)) /\
                                Comments.author_id c = Some (User.id u);
  comment_targets : forall c i, In c (comments (db st)) -> Comments.post_id c = Some i ->
                      exists p, In p (blog_posts (db st)) /\ BlogPost.id p = i
}.

(* ------------------------------------------------------------------ *)
(** * Properties *)

Unset Implicit Arguments.

Section Properties.

Context {imported : Imported}.

(** Unfolds the monad and the flask_login primitives. *)
Ltac py_unfold :=
  unfold abort, current_user, login_user, logout_user, flash in *;
  unfold bind, ret, raise, gets, modify, set_db, set_session in *.

(** Case analysis on every [if] and [match] scrutinee left in the goal,
    innermost first. *)
Ltac destruct_innermost x :=
  match x with
  | context [match ?y with _ => _ end] => destruct_innermost y
  | _ => destruct x eqn:?
  end.

Ltac py_cases :=
  repeat match goal with
         | |- context [match ?x with _ => _ end] =>
             destruct_innermost x; simpl in *
         end.

(** Reads the equations the case analysis leaves behind. *)
Ltac py_inv :=
  repeat match goal with
         | H : (_, _) = (_, _) |- _ => inversion H; subst; clear H
         | H : Ok _ = Ok _ |- _ => inversion H; subst; clear H
         | H : Ok _ = Raise _ |- _ => discriminate H
         | H : Raise _ = Ok _ |- _ => discriminate H
         end.

(** ** The lookup of a post *)

Lemma fits_INTEGER_iff (i : Z) : fits_INTEGER i = true <-> - 2 ^ 63 <= i < 2 ^ 63.
Proof.
  unfold fits_INTEGER. rewrite andb_true_iff, Z.leb_le, Z.ltb_lt. reflexivity.
Qed.

(** An id that fits is looked up: the stored row, or [None]. *)
Lemma BlogPost_query_get_bound_fits (post_id : Z) (st : App) :
  - 2 ^ 63 <= post_id < 2 ^ 63 ->
  BlogPost_query_get_bound post_id st = (Ok (BlogPost_query_get post_id (db st)), st).
Proof.
  intros H. apply fits_INTEGER_iff in H. unfold BlogPost_query_get_bound.
  rewrite H. destruct (BlogPost_query_get post_id (db st)); reflexivity.
Qed.

(** A stored row is found. *)
Lemma BlogPost_query_get_bound_stored (post_id : Z) (st : App) (p : BlogPost.t) :
  BlogPost_query_get post_id (db st) = Some p ->
  BlogPost_query_get_bound post_id st = (Ok (BlogPost_query_get post_id (db st)), st).
Proof.
  intros H. unfold BlogPost_query_get_bound. now rewrite H.
Qed.

(** An id that does not fit, and so is not stored, raises. *)
Lemma BlogPost_query_get_bound_overflow (post_id : Z) (st : App) :
  BlogPost_query_get post_id (db st) = None ->
  2 ^ 63 <= post_id ->
  BlogPost_query_get_bound post_id st = (Raise OverflowError, st).
Proof.
  intros Hq Hbig. unfold BlogPost_query_get_bound. rewrite Hq.
  destruct (fits_INTEGER post_id) eqn:E; [|reflexivity].
  apply fits_INTEGER_iff in E. lia.
Qed.

(** ** Row ids *)

Lemma fold_max_snoc (l : list Z) (x : Z) :
  fold_right Z.max 0 (l ++ [x])%list = Z.max (fold_right Z.max 0 l) (Z.max x 0).
Proof.
  induction l as [|a l IH]; simpl.
  - lia.
  - rewrite IH. lia.
Qed.

Lemma fold_max_rowids (n : nat) : fold_right Z.max 0 (rowids n) = Z.of_nat n.
Proof.
  unfold rowids. induction n as [|n IH].
  - reflexivity.
  - rewrite seq_S, map_app. cbn [map]. rewrite fold_max_snoc, IH. lia.
Qed.

Lemma next_rowid_rowids (n : nat) : next_rowid (rowids n) = Z.of_nat (S n).
Proof. unfold next_rowid. rewrite fold_max_rowids. lia. Qed.

Lemma rowids_snoc (n : nat) : (rowids n ++ [Z.of_nat (S n)])%list = rowids (S n).
Proof. unfold rowids. rewrite seq_S, map_app. reflexivity. Qed.

Lemma next_rowid_fresh (ids : list Z) : ~ In (next_rowid ids) ids.
Proof.
  assert (H : forall i, In i ids -> i <= fold_right Z.max 0 ids).
  { induction ids as [|a l IH]; simpl; intros i [].
    - subst. lia.
    - specialize (IH i H). lia. }
  intros Hin. apply H in Hin. unfold next_rowid in Hin. lia.
Qed.

Lemma fold_min_le (l : list Z) (a i : Z) :
  In i (a :: l) -> fold_right Z.min a l <= i.
Proof.
  induction l as [|b l IH]; simpl.
  - intros [<- | []]. lia.
  - intros [<- | [<- | H]].
    + assert (fold_right Z.min a l <= a) by (apply IH; now left). lia.
    + lia.
    + assert (fold_right Z.min a l <= i) by (apply IH; now right). lia.
Qed.

Lemma fold_min_in (l : list Z) (a : Z) : In (fold_right Z.min a l) (a :: l).
Proof.
  induction l as [|b l IH]; simpl.
  - now left.
  - destruct (Z.min_spec b (fold_right Z.min a l)) as [[_ ->] | [_ ->]].
    + right. now left.
    + destruct IH as [IH | IH]; [now left | right; now right].
Qed.

Lemma in_rowids (n : nat) (i : Z) : In i (rowids n) <-> 1 <= i <= Z.of_nat n.
Proof.
  unfold rowids. rewrite in_map_iff. split.
  - intros (k & <- & Hk). apply in_seq in Hk. lia.
  - intros H. exists (Z.to_nat i). split; [lia | apply in_seq; lia].
Qed.

(** In a table whose ids are 1..n the smallest id is 1. *)
Lemma min_user_id_rowids (us : list User.t) :
  map User.id us = rowids (length us) -> us <> [] -> min_user_id us = Some 1.
Proof.
  intros Hids Hne. unfold min_user_id.
  destruct (map User.id us) as [|i ids] eqn:E.
  - destruct us; [congruence | discriminate].
  - f_equal.
    assert (Hone : In 1 (i :: ids)).
    { rewrite Hids. apply in_rowids. destruct us; [congruence | simpl length; lia]. }
    pose proof (fold_min_le ids i 1 Hone) as Hle.
    pose proof (fold_min_in ids i) as Hin.
    rewrite Hids in Hin. apply in_rowids in Hin. lia.
Qed.

(** ** What a request can do to the users table *)

Ltac views_unfold :=
  unfold dispatch_request, get_all_posts, register, login, logout, show_post,
         about, contact, add_new_post, edit_post, delete_post,
         add_new_post__wrapped, edit_post__wrapped, delete_post__wrapped,
         login_required, admin_only, new_Comments, validate_on_submit,
         BlogPost_query_get_bound, commit_new_user, commit_new_post, commit_new_comment,
         commit_post_update, commit_delete_post in *.

(** Only a successful registration touches the users table, and it appends
    one row with the next rowid. *)
Lemma dispatch_users (r : HTTPRequest) (st : App) :
  let us := users (db st) in
  let us' := users (db (snd (dispatch_request r st))) in
  us' = us \/
  exists e p n, us' = (us ++ [User.mk (next_rowid (map User.id us)) e p n])%list.
Proof.
  destruct r as [m rule f s t]. destruct st as [[us ps cs] [uid fl]].
  views_unfold; py_unfold; simpl.
  destruct rule; py_cases; py_inv; simpl; auto; right; eauto.
Qed.

(** The ids of the users table are 1..n in every reachable state. *)
Lemma reachable_user_ids (st : App) :
  reachable st -> map User.id (users (db st)) = rowids (length (users (db st))).
Proof.
  induction 1 as [|st r _ IH].
  - reflexivity.
  - destruct (dispatch_users r st) as [-> | (e & p & n & ->)]; [exact IH|].
    rewrite map_app, length_app, IH, next_rowid_rowids. simpl.
    rewrite rowids_snoc. f_equal. lia.
Qed.

(** The user with id 1 is the first row of a table whose ids are 1..n. *)
Lemma first_row_iff_id_one (us : list User.t) (u : User.t) :
  map User.id us = rowids (length us) -> In u us ->
  (is_administrator u = true <-> hd_error us = Some u).
Proof.
  unfold is_administrator. intros Hids Hin.
  destruct us as [|u0 rest]; [contradiction|].
  simpl in Hids. unfold rowids in Hids. simpl in Hids.
  injection Hids as H0 Hrest. simpl. split.
  - intros H1. apply Z.eqb_eq in H1. destruct Hin as [-> | Hin]; [reflexivity|].
    exfalso. apply (in_map User.id) in Hin. rewrite Hrest in Hin.
    apply in_map_iff in Hin. destruct Hin as (k & Hk & Hseq).
    apply in_seq in Hseq. lia.
  - intros [= <-]. apply Z.eqb_eq. exact H0.
Qed.

(** ** The two decorators *)

(** What [@login_required @admin_only] does for a logged-in user. *)
Lemma gate_authenticated {F} (f : View F) (request : Request F) (st : App) (u : User.t) :
  current_user_of st = Some u ->
  login_required (admin_only f) request st =
  if is_administrator u then f request st else (Raise (HTTPException 403), st).
Proof.
  intros Hu. unfold login_required, admin_only. py_unfold. cbv beta iota.
  repeat (rewrite Hu; cbv beta iota).
  destruct (is_administrator u); reflexivity.
Qed.

(** What it does for the anonymous user. *)
Lemma gate_anonymous {F} (f : View F) (request : Request F) (st : App) :
  current_user_of st = None ->
  login_required (admin_only f) request st = (Raise (HTTPException 401), st).
Proof.
  intros Hu. unfold login_required. py_unfold. cbv beta iota. now rewrite Hu.
Qed.

(** C1. In every state the application reaches, a stored user passes the
    test of [admin_only] if and only if its id is the smallest id of the users
    table, which is the id of the first row (the first-ever-registered user).
    The three content-mutating views ([add_new_post], [edit_post],
    [delete_post]) run their body for that user and answer 403, changing
    nothing, for every other logged-in user. *)
Theorem admin_is_first_registered (st : App) :
  reachable st ->
  (forall u, In u (users (db st)) ->
     (is_administrator u = true <-> min_user_id (users (db st)) = Some (User.id u)) /\
     (is_administrator u = true <-> hd_error (users (db st)) = Some u)) /\
  (forall u, current_user_of st = Some u ->
     if is_administrator u then
       (forall request, add_new_post request st = add_new_post__wrapped request st) /\
       (forall post_id request,
           edit_post post_id request st = edit_post__wrapped post_id request st) /\
       (forall post_id request,
           delete_post post_id request st = delete_post__wrapped post_id request st)
     else
       (forall request, add_new_post request st = (Raise (HTTPException 403), st)) /\
       (forall post_id request,
           edit_post post_id request st = (Raise (HTTPException 403), st)) /\
       (forall post_id request,
           delete_post post_id request st = (Raise (HTTPException 403), st))).
Proof.
  intros Hreach. pose proof (reachable_user_ids st Hreach) as Hids. split.
  - intros u Hin. split.
    + assert (Hmin : min_user_id (users (db st)) = Some 1).
      { apply min_user_id_rowids; [exact Hids|].
        intros E. rewrite E in Hin. contradiction. }
      rewrite Hmin. unfold is_administrator. rewrite Z.eqb_eq. split; congruence.
    + now apply first_row_iff_id_one.
  - intros u Hu. unfold add_new_post, edit_post, delete_post.
    destruct (is_administrator u) eqn:Hadm; repeat split; intros;
      rewrite (gate_authenticated _ _ _ _ Hu), Hadm; reflexivity.
Qed.

(** ** register *)

Lemma existsb_email_false (us : list User.t) (e : string) :
  (forall u, In u us -> User.email u <> e) ->
  existsb (fun u => String.eqb (User.email u) e) us = false.
Proof.
  intros H. destruct (existsb _ us) eqn:E; [|reflexivity].
  apply existsb_exists in E. destruct E as (u & Hin & Heq).
  apply String.eqb_eq in Heq. now apply H in Hin.
Qed.

Lemma existsb_email_true (us : list User.t) (e : string) :
  (exists u, In u us /\ User.email u = e) ->
  existsb (fun u => String.eqb (User.email u) e) us = true.
Proof.
  intros (u & Hin & Heq). apply existsb_exists. exists u. split; [exact Hin|].
  now apply String.eqb_eq.
Qed.

(** The submit branch of [register], in one equation: the UNIQUE constraint
    on [email] is the only thing that decides the outcome. *)
Lemma register_submitted (st : App) (request : Request RegisterFormData) :
  validate_on_submit RegisterForm_validate request = true ->
  register request st =
  let f := form request in
  if existsb (fun u => String.eqb (User.email u) (rf_email f)) (users (db st))
  then (Raise (IntegrityError "users.email"), st)
  else
    let u := User.mk (next_rowid (map User.id (users (db st)))) (rf_email f)
                     (generate_password_hash (rf_password f) (salt request))
                     (rf_name f) in
    (Ok (redirect url_get_all_posts),
     mkApp (mkDB (users (db st) ++ [u]) (blog_posts (db st)) (comments (db st)))
           (mkSession (Some (User.id u)) (flashes (session st)))).
Proof.
  intros Hv. unfold register. rewrite Hv. unfold commit_new_user. py_unfold.
  cbv beta iota zeta. destruct (existsb _ _); reflexivity.
Qed.

(** C4. A registration (a submitted form that validates) with an email some
    stored user already has raises the integrity error of the UNIQUE
    constraint on users.email and leaves the whole state, so the set of users,
    unchanged; with an email no stored user has it appends exactly one user,
    whose id is not the id of any stored user, and logs that user in. *)
Theorem register_duplicate_or_fresh (st : App) (request : Request RegisterFormData) :
  validate_on_submit RegisterForm_validate request = true ->
  ((exists u, In u (users (db st)) /\ User.email u = rf_email (form request)) ->
   register request st = (Raise (IntegrityError "users.email"), st))
  /\
  ((forall u, In u (users (db st)) -> User.email u <> rf_email (form request)) ->
   exists u,
     register request st =
       (Ok (redirect url_get_all_posts),
        mkApp (mkDB (users (db st) ++ [u]) (blog_posts (db st)) (comments (db st)))
              (mkSession (Some (User.id u)) (flashes (session st))))
     /\ ~ In (User.id u) (map User.id (users (db st)))
     /\ User.email u = rf_email (form request)
     /\ User.name u = rf_name (form request)
     /\ User.password u =
          generate_password_hash (rf_password (form request)) (salt request)).
Proof.
  intros Hv. split; intros H; rewrite (register_submitted st request Hv); cbv zeta.
  - now rewrite existsb_email_true.
  - rewrite existsb_email_false by exact H.
    eexists. split; [reflexivity|]. simpl. repeat split.
    apply next_rowid_fresh.
Qed.

(** A submission the form class rejects renders the form again and stores
    nothing. *)
Lemma register_rejected (st : App) (request : Request RegisterFormData) :
  validate_on_submit RegisterForm_validate request = false ->
  register request st = (Ok (render_template (register_html (form request))), st).
Proof.
  intros Hv. unfold register. now rewrite Hv.
Qed.


(** ** login and logout *)

(** The submit branch of [login] when some stored user has the email. *)
Lemma login_known_email (st : App) (request : Request LoginFormData) (user : User.t) :
  validate_on_submit LoginForm_validate request = true ->
  User_query_filter_by_email_first (lf_email (form request)) (db st) = Some user ->
  login request st =
  if check_password_hash (User.password user) (lf_password (form request))
  then (Ok (redirect url_get_all_posts),
        mkApp (db st) (mkSession (Some (User.id user)) (flashes (session st))))
  else (Ok (redirect url_login),
        mkApp (db st) (mkSession (user_id (session st))
                                 (flashes (session st) ++ ["Try again please"]))).
Proof.
  intros Hv Hq. unfold login. rewrite Hv. py_unfold. cbv beta iota zeta.
  rewrite Hq. destruct (check_password_hash _ _); reflexivity.
Qed.

(** The submit branch of [login] when no stored user has the email: the
    lookup gives [None], and reading [user.password] raises before
    [check_password_hash] is called. *)
Lemma login_unknown_email (st : App) (request : Request LoginFormData) :
  validate_on_submit LoginForm_validate request = true ->
  User_query_filter_by_email_first (lf_email (form request)) (db st) = None ->
  login request st = (Raise (AttributeError "password"), st).
Proof.
  intros Hv Hq. unfold login. rewrite Hv. py_unfold. cbv beta iota zeta.
  now rewrite Hq.
Qed.

(** C9. [login], whatever it does (renders the form, logs in, flashes, or
    raises), and [logout] leave the database as it was: users, posts and
    comments are the same lists of the same rows.  [logout] only clears the id
    bound to the session; [login] only binds the id of a stored user with the
    submitted email, or queues its one flash message. *)
Theorem login_logout_keep_repositories (st : App) :
  (forall request,
      db (snd (login request st)) = db st /\
      (snd (login request st) = st \/
       (exists user,
           User_query_filter_by_email_first (lf_email (form request)) (db st) = Some user /\
           snd (login request st) =
             mkApp (db st) (mkSession (Some (User.id user)) (flashes (session st)))) \/
       snd (login request st) =
         mkApp (db st) (mkSession (user_id (session st))
                                  (flashes (session st) ++ ["Try again please"]))))
  /\
  (forall request,
      logout request st =
        (Ok (redirect url_get_all_posts),
         mkApp (db st) (mkSession None (flashes (session st)))))
  /\
  (forall m f s t,
      db (snd (dispatch_request (mkHTTP m rule_login f s t) st)) = db st /\
      db (snd (dispatch_request (mkHTTP m rule_logout f s t) st)) = db st).
Proof.
  assert (Hlogin : forall request,
      snd (login request st) = st \/
       (exists user,
           User_query_filter_by_email_first (lf_email (form request)) (db st) = Some user /\
           snd (login request st) =
             mkApp (db st) (mkSession (Some (User.id user)) (flashes (session st)))) \/
       snd (login request st) =
         mkApp (db st) (mkSession (user_id (session st))
                                  (flashes (session st) ++ ["Try again please"]))).
  { intros request.
    destruct (validate_on_submit LoginForm_validate request) eqn:Hv.
    - destruct (User_query_filter_by_email_first (lf_email (form request)) (db st))
        as [user|] eqn:Hq.
      + rewrite (login_known_email st request user Hv Hq).
        destruct (check_password_hash _ _); simpl.
        * right. left. exists user. split; reflexivity.
        * right. right. reflexivity.
      + rewrite (login_unknown_email st request Hv Hq). now left.
    - unfold login. rewrite Hv. now left. }
  assert (Hdb : forall request, db (snd (login request st)) = db st).
  { intros request.
    destruct (Hlogin request) as [-> | [(user & _ & ->) | ->]]; reflexivity. }
  split; [|split].
  - intros request. split; [apply Hdb | apply Hlogin].
  - intros request. reflexivity.
  - intros m f s t. unfold dispatch_request. simpl. split.
    + destruct (Method_eqb m GET || (Method_eqb m POST || false)); [apply Hdb | reflexivity].
    + destruct (Method_eqb m GET || false); reflexivity.
Qed.

(** C2 (as the code has it). A login (a submitted form that validates) with
    an email no stored user has does not end like a wrong password: the
    lookup gives [None] and reading [user.password] raises AttributeError,
    while a wrong password for a stored user flashes "Try again please" and
    redirects to the login page.  Neither changes the database. *)
Theorem login_failures_differ (st : App) (request : Request LoginFormData) :
  validate_on_submit LoginForm_validate request = true ->
  match User_query_filter_by_email_first (lf_email (form request)) (db st) with
  | None => login request st = (Raise (AttributeError "password"), st)
  | Some user =>
      check_password_hash (User.password user) (lf_password (form request)) = false ->
      login request st =
        (Ok (redirect url_login),
         mkApp (db st) (mkSession (user_id (session st))
                                  (flashes (session st) ++ ["Try again please"])))
  end.
Proof.
  intros Hv.
  destruct (User_query_filter_by_email_first (lf_email (form request)) (db st))
    as [user|] eqn:Hq.
  - intros Hpw. rewrite (login_known_email st request user Hv Hq). now rewrite Hpw.
  - now apply login_unknown_email.
Qed.

(** ** show_post *)

(** A request that submits no valid comment only renders the page. *)
Lemma show_post_view (st : App) (post_id : Z) (request : Request CommentFormData) :
  BlogPost_query_get_bound post_id st = (Ok (BlogPost_query_get post_id (db st)), st) ->
  validate_on_submit CommentForm_validate request = false ->
  show_post post_id request st =
  (Ok (render_template
         (post_html (BlogPost_query_get post_id (db st))
                    (Comments_query_all (db st)) (form request))), st).
Proof.
  intros Hlook Hv. unfold show_post. rewrite Hv. unfold bind at 1.
  rewrite Hlook. reflexivity.
Qed.

(** A valid comment submitted by the anonymous user: building the comment
    raises, nothing is stored. *)
Lemma show_post_anonymous (st : App) (post_id : Z) (request : Request CommentFormData) :
  BlogPost_query_get_bound post_id st = (Ok (BlogPost_query_get post_id (db st)), st) ->
  validate_on_submit CommentForm_validate request = true ->
  current_user_of st = None ->
  show_post post_id request st = (Raise (AttributeError "_sa_instance_state"), st).
Proof.
  intros Hlook Hv Hu. unfold show_post, new_Comments. rewrite Hv. unfold bind at 1.
  rewrite Hlook. py_unfold. cbv beta iota zeta. now rewrite Hu.
Qed.

(** A valid comment submitted by a logged-in user is stored with that user
    as its author and with the id of the requested post, NULL when there is
    no such post; the page lists the comments read before the insert. *)
Lemma show_post_authenticated
      (st : App) (post_id : Z) (request : Request CommentFormData) (u : User.t) :
  BlogPost_query_get_bound post_id st = (Ok (BlogPost_query_get post_id (db st)), st) ->
  validate_on_submit CommentForm_validate request = true ->
  current_user_of st = Some u ->
  show_post post_id request st =
  (Ok (render_template
         (post_html (BlogPost_query_get post_id (db st))
                    (Comments_query_all (db st)) (form request))),
   mkApp (mkDB (users (db st)) (blog_posts (db st))
               (comments (db st)
                ++ [Comments.mk (next_rowid (map Comments.id (comments (db st))))
                                (Some (User.id u))
                                (option_map BlogPost.id (BlogPost_query_get post_id (db st)))
                                (cf_comment (form request))]))
         (session st)).
Proof.
  intros Hlook Hv Hu. unfold show_post, new_Comments, commit_new_comment. rewrite Hv.
  unfold bind at 1. rewrite Hlook. py_unfold. cbv beta iota zeta. rewrite Hu.
  reflexivity.
Qed.

(** An id that does not fit the INTEGER column: the lookup raises before
    anything else of [show_post] runs. *)
Lemma show_post_overflow (st : App) (post_id : Z) (request : Request CommentFormData) :
  BlogPost_query_get post_id (db st) = None ->
  2 ^ 63 <= post_id ->
  show_post post_id request st = (Raise OverflowError, st).
Proof.
  intros Hq Hbig. unfold show_post. unfold bind at 1.
  now rewrite (BlogPost_query_get_bound_overflow post_id st Hq Hbig).
Qed.

(** C7. For every state and every post id (an id that fits the INTEGER
    column; a larger one raises in the lookup before the comments are read),
    the comments [show_post] hands to the page are all the comments of the
    database as the request finds it, whatever post each of them targets: a
    plain view (GET) renders exactly that list, and any other request either
    renders that list or is the anonymous submission that raises. *)
Theorem show_post_lists_all_comments (st : App) (post_id : Z) :
  - 2 ^ 63 <= post_id < 2 ^ 63 ->
  (forall f s t,
      show_post post_id (mkRequest GET f s t) st =
        (Ok (render_template
               (post_html (BlogPost_query_get post_id (db st)) (comments (db st)) f)), st))
  /\
  (forall request,
      fst (show_post post_id request st) =
        Ok (render_template
              (post_html (BlogPost_query_get post_id (db st)) (comments (db st))
                         (form request)))
      \/ (current_user_of st = None /\
          show_post post_id request st =
            (Raise (AttributeError "_sa_instance_state"), st))).
Proof.
  intros Hfits. pose proof (BlogPost_query_get_bound_fits post_id st Hfits) as Hlook.
  split.
  - intros f s t. now rewrite (show_post_view st post_id _ Hlook).
  - intros request.
    destruct (validate_on_submit CommentForm_validate request) eqn:Hv.
    + destruct (current_user_of st) as [u|] eqn:Hu.
      * left. now rewrite (show_post_authenticated st post_id request u Hlook Hv Hu).
      * right. split; [reflexivity|]. now apply show_post_anonymous.
    + left. now rewrite (show_post_view st post_id request Hlook Hv).
Qed.

(** C3 (as the code has it). A comment (a submitted form that validates)
    from a session with no logged-in user is not refused as unauthenticated:
    [show_post] has no login check, and building the comment with the
    anonymous user as its author raises AttributeError; no comment is stored.
    The same submission from a logged-in session stores one new comment whose
    author is the logged-in user and renders the page.  The post id is one
    that fits the INTEGER column. *)
Theorem show_post_comment_by_session
        (st : App) (post_id : Z) (request : Request CommentFormData) :
  - 2 ^ 63 <= post_id < 2 ^ 63 ->
  validate_on_submit CommentForm_validate request = true ->
  match current_user_of st with
  | None =>
      show_post post_id request st = (Raise (AttributeError "_sa_instance_state"), st)
  | Some u =>
      exists c,
        show_post post_id request st =
          (Ok (render_template
                 (post_html (BlogPost_query_get post_id (db st))
                            (Comments_query_all (db st)) (form request))),
           mkApp (mkDB (users (db st)) (blog_posts (db st)) (comments (db st) ++ [c]))
                 (session st))
        /\ Comments.author_id c = Some (User.id u)
        /\ Comments.text c = cf_comment (form request)
        /\ ~ In (Comments.id c) (map Comments.id (comments (db st)))
  end.
Proof.
  intros Hfits Hv.
  pose proof (BlogPost_query_get_bound_fits post_id st Hfits) as Hlook.
  destruct (current_user_of st) as [u|] eqn:Hu.
  - eexists. split; [apply (show_post_authenticated st post_id request u Hlook Hv Hu)|].
    simpl. repeat split. apply next_rowid_fresh.
  - now apply show_post_anonymous.
Qed.

(** C5 (as the code has it). A comment (a submitted form that validates)
    from a logged-in user on a post id that is not in the database is not
    refused: [BlogPost.query.get] gives [None], the comment is built with
    [post=None] and committed, so the comments table gains a row whose
    [post_id] is NULL, and the page is rendered with no post.  The post id
    is one that fits the INTEGER column. *)
Theorem show_post_missing_post_stores_comment
        (st : App) (post_id : Z) (request : Request CommentFormData) (u : User.t) :
  - 2 ^ 63 <= post_id < 2 ^ 63 ->
  validate_on_submit CommentForm_validate request = true ->
  current_user_of st = Some u ->
  BlogPost_query_get post_id (db st) = None ->
  show_post post_id request st =
    (Ok (render_template (post_html None (comments (db st)) (form request))),
     mkApp (mkDB (users (db st)) (blog_posts (db st))
                 (comments (db st)
                  ++ [Comments.mk (next_rowid (map Comments.id (comments (db st))))
                                  (Some (User.id u)) None (cf_comment (form request))]))
           (session st)).
Proof.
  intros Hfits Hv Hu Hq.
  rewrite (show_post_authenticated st post_id request u
             (BlogPost_query_get_bound_fits post_id st Hfits) Hv Hu).
  rewrite Hq. reflexivity.
Qed.

(** ** delete_post *)

Lemma find_filter_out {A} (f : A -> bool) (l : list A) :
  find f (filter (fun x => negb (f x)) l) = None.
Proof.
  induction l as [|a l IH]; simpl; [reflexivity|].
  destruct (f a) eqn:E; simpl; [exact IH|]. now rewrite E.
Qed.

Lemma detach_comment_same (post : Z) (c : Comments.t) :
  same_comment_up_to_target c (detach_comment post c).
Proof.
  unfold same_comment_up_to_target, detach_comment.
  destruct (Comments.post_id c) as [i|] eqn:E.
  - destruct (Z.eqb i post); simpl; rewrite ?E; auto.
  - rewrite E. auto.
Qed.

Lemma detach_comment_other (post : Z) (c : Comments.t) :
  Comments.post_id c <> Some post -> detach_comment post c = c.
Proof.
  unfold detach_comment. intros H.
  destruct (Comments.post_id c) as [i|]; [|reflexivity].
  destruct (Z.eqb_spec i post); [subst; congruence | reflexivity].
Qed.

(** The body of [delete_post] on an existing post. *)
Lemma delete_post__wrapped_existing
      (st : App) (post_id : Z) (request : Request unit) (p : BlogPost.t) :
  BlogPost_query_get post_id (db st) = Some p ->
  delete_post__wrapped post_id request st =
  (Ok (redirect url_get_all_posts),
   mkApp (mkDB (users (db st))
               (filter (fun q => negb (Z.eqb (BlogPost.id q) post_id)) (blog_posts (db st)))
               (map (detach_comment post_id) (comments (db st))))
         (session st)).
Proof.
  intros Hq. unfold delete_post__wrapped, commit_delete_post. unfold bind at 1.
  rewrite (BlogPost_query_get_bound_stored post_id st p Hq). py_unfold.
  cbv beta iota zeta. rewrite Hq.
  assert (Hid : BlogPost.id p = post_id).
  { unfold BlogPost_query_get in Hq. apply find_some in Hq.
    now apply Z.eqb_eq. }
  rewrite Hid. reflexivity.
Qed.

(** C8. When the administrator deletes an existing post, the post is gone
    and no comment is: the comments table keeps the same rows in the same
    order, each with its id, author and text; a comment of another post is
    untouched, a comment of the deleted post stays with its target set to
    NULL (orphaned). *)
Theorem delete_post_keeps_comments
        (st : App) (post_id : Z) (request : Request unit) (admin : User.t) (p : BlogPost.t) :
  current_user_of st = Some admin ->
  is_administrator admin = true ->
  BlogPost_query_get post_id (db st) = Some p ->
  fst (delete_post post_id request st) = Ok (redirect url_get_all_posts) /\
  BlogPost_query_get post_id (db (snd (delete_post post_id request st))) = None /\
  length (comments (db (snd (delete_post post_id request st))))
    = length (comments (db st)) /\
  map Comments.id (comments (db (snd (delete_post post_id request st))))
    = map Comments.id (comments (db st)) /\
  (forall c, In c (comments (db st)) ->
     exists c', In c' (comments (db (snd (delete_post post_id request st)))) /\
                same_comment_up_to_target c c') /\
  (forall c, In c (comments (db st)) -> Comments.post_id c <> Some post_id ->
     In c (comments (db (snd (delete_post post_id request st))))).
Proof.
  intros Hu Hadm Hq. unfold delete_post.
  rewrite (gate_authenticated _ _ _ _ Hu), Hadm.
  rewrite (delete_post__wrapped_existing st post_id request p Hq). simpl.
  repeat split.
  - unfold BlogPost_query_get. simpl.
    apply (find_filter_out (fun q => Z.eqb (BlogPost.id q) post_id)).
  - apply length_map.
  - rewrite map_map. apply map_ext. intros c.
    destruct (detach_comment_same post_id c) as (H & _). exact H.
  - intros c Hin. exists (detach_comment post_id c). split.
    + now apply in_map.
    + apply detach_comment_same.
  - intros c Hin Hother. rewrite <- (detach_comment_other post_id c Hother).
    now apply in_map.
Qed.

(** ** edit_post *)

(** What the body of [edit_post] would do with a submitted form: replace the
    five assigned attributes of the row and keep its id and date. *)
Lemma edit_post__wrapped_submitted
      (st : App) (post_id : Z) (request : Request CreatePostFormData)
      (p : BlogPost.t) (author : option Z) :
  is_submitted request = true ->
  CreatePostForm_validate (form request) = true ->
  BlogPost_query_get post_id (db st) = Some p ->
  edit_form_author_data (form request) = Ok author ->
  existsb (fun q => negb (Z.eqb (BlogPost.id q) (BlogPost.id p))
                    && String.eqb (BlogPost.title q) (pf_title (form request)))
          (blog_posts (db st)) = false ->
  edit_post__wrapped post_id request st =
  (Ok (redirect (url_show_post (BlogPost.id p))),
   mkApp (mkDB (users (db st))
               (map (fun q => if Z.eqb (BlogPost.id q) (BlogPost.id p)
                              then BlogPost.mk (BlogPost.id p) author
                                     (pf_title (form request)) (pf_subtitle (form request))
                                     (BlogPost.date p) (pf_body (form request))
                                     (pf_img_url (form request))
                              else q)
                    (blog_posts (db st)))
               (comments (db st)))
         (session st)).
Proof.
  intros Hs Hv Hq Ha Hu.
  unfold edit_post__wrapped, commit_post_update, prefilled, validate_on_submit.
  unfold bind at 1. rewrite (BlogPost_query_get_bound_stored post_id st p Hq).
  py_unfold. cbv beta iota zeta. rewrite Hq, Hs, Hv, Ha. simpl.
  rewrite Hu. reflexivity.
Qed.

(** A GET never reaches the submit branch of a view. *)
Lemma edit_post_GET (st : App) (post_id : Z) (f : CreatePostFormData) (s t : string) :
  snd (edit_post post_id (mkRequest GET f s t) st) = st.
Proof.
  unfold edit_post, edit_post__wrapped, login_required, admin_only, prefilled,
         validate_on_submit, is_submitted, BlogPost_query_get_bound.
  py_unfold. simpl. py_cases; py_inv; reflexivity.
Qed.

(** C6 (as the code has it). The rule of [edit_post] is declared without
    [methods], so it allows GET only: a POST to it is answered 405 before the
    view runs, a GET never submits a form, and so no request to the rule
    changes any post, or anything else. *)
Theorem edit_post_route_never_updates
        (st : App) (post_id : Z) (f : FormData) (s t : string) :
  dispatch_request (mkHTTP POST (rule_edit_post post_id) f s t) st
    = (Raise (HTTPException 405), st) /\
  (forall m, snd (dispatch_request (mkHTTP m (rule_edit_post post_id) f s t) st) = st).
Proof.
  split; [reflexivity|].
  intros [|]; [|reflexivity].
  unfold dispatch_request, request_for. simpl. apply edit_post_GET.
Qed.

(* ------------------------------------------------------------------ *)
(** ** One request, as a transition *)

Lemma existsb_false_all {A} (f : A -> bool) (l : list A) :
  existsb f l = false -> forall x, In x l -> f x = false.
Proof.
  intros H x Hin. destruct (f x) eqn:E; [|reflexivity].
  assert (existsb f l = true) by (apply existsb_exists; eauto). congruence.
Qed.

(** Every request, whatever its rule, method and body, is one transition. *)
Lemma dispatch_transition (r : HTTPRequest) (st : App) :
  transition st (snd (dispatch_request r st)).
Proof.
  assert (Hsame : transition st st).
  { replace st with (mkApp (db st) (session st)) at 2 by (now destruct st).
    apply tr_session. now left. }
  destruct r as [m rule f s t].
  destruct m; views_unfold; py_unfold; simpl;
    destruct rule; py_cases; py_inv; simpl; try exact Hsame.
  all: try discriminate.
  all: repeat match goal with
       | H : Some _ = Some _ |- _ => inversion H; subst; clear H
       | H : negb (is_administrator _) = false |- _ => apply negb_false_iff in H
       | H : BlogPost_query_get _ _ = Some _ |- _ =>
           apply find_some in H; destruct H as [H _]
       | H : User_query_filter_by_email_first _ _ = Some _ |- _ =>
           apply find_some in H; destruct H as [H _]
       end.
  all: try (eapply tr_comment; try eassumption; try reflexivity; simpl;
            first [ now left
                  | right; eexists; split; [eassumption | reflexivity] ]).
  - (* logout *)
    apply tr_session. right. now left.
  - (* delete_post *)
    eapply tr_delete; eassumption.
  - (* register *)
    match goal with
    | |- transition _ (mkApp (mkDB (_ ++ [?u]) _ _) _) => apply (tr_register st u)
    end; [reflexivity|].
    intros v Hv. simpl.
    match goal with
    | H : existsb _ _ = false |- _ => apply (existsb_false_all _ _ H) in Hv
    end.
    now apply String.eqb_neq.
  - (* login, the password matches *)
    apply tr_session. right. right. eexists. split; [eassumption | reflexivity].
  - (* login, it does not *)
    apply tr_session. now left.
  - (* add_new_post *)
    eapply tr_publish; try eassumption; try reflexivity.
    intros q Hq. simpl.
    match goal with
    | H : existsb _ _ = false |- _ => apply (existsb_false_all _ _ H) in Hq
    end.
    now apply String.eqb_neq.
Qed.


(** ** What every reachable state keeps *)

Lemma NoDup_snoc {A} (l : list A) (x : A) :
  NoDup l -> ~ In x l -> NoDup (l ++ [x]).
Proof.
  intros Hl Hx. apply NoDup_app.
  - exact Hl.
  - constructor; [intros [] | constructor].
  - intros a Ha [<- | []]. contradiction.
Qed.

Lemma NoDup_map_filter {A B} (g : A -> B) (f : A -> bool) (l : list A) :
  NoDup (map g l) -> NoDup (map g (filter f l)).
Proof.
  induction l as [|a l IH]; simpl; intros H; [constructor|].
  inversion H as [|? ? Hnot Hrest]; subst.
  destruct (f a); simpl; [constructor|]; auto.
  intros Hin. apply Hnot. apply in_map_iff in Hin. destruct Hin as (b & <- & Hb).
  apply filter_In in Hb. apply in_map. apply Hb.
Qed.

(** The user [current_user] resolves to is a row of the users table, and it
    is the row whose id the session holds. *)
Lemma current_user_stored (st : App) (u : User.t) :
  current_user_of st = Some u ->
  In u (users (db st)) /\ user_id (session st) = Some (User.id u).
Proof.
  unfold current_user_of, load_user, User_query_get.
  destruct (user_id (session st)) as [i|]; [|discriminate].
  intros H. apply find_some in H. destruct H as [Hin Hid].
  apply Z.eqb_eq in Hid. subst. auto.
Qed.

Lemma transition_consistent (st st' : App) :
  consistent st -> transition st st' -> consistent st'.
Proof.
  intros [Hids Hemails Hsess Hpids Htitles Hpauth Hcids Hcauth Hctgt] Htr.
  destruct Htr as [s Hs | u Hid Hfresh | admin p Hu Hadm Hid Hauth Hfresh
                   | u c Hu Hid Hauth Htgt | admin p Hu Hadm Hin];
    constructor; simpl; auto.
  - (* session only *)
    intros i Hi. destruct Hs as [Hs | [Hs | (u & Hin & Hs)]].
    + apply Hsess. congruence.
    + congruence.
    + rewrite Hs in Hi. injection Hi as <-. now apply in_map.
  - (* register: ids *)
    rewrite map_app, length_app. cbn [map length].
    rewrite Hid, Hids, next_rowid_rowids, rowids_snoc. f_equal. lia.
  - (* register: emails *)
    rewrite map_app. simpl. apply NoDup_snoc; [exact Hemails|].
    intros Hin. apply in_map_iff in Hin. destruct Hin as (v & Hv & Hvin).
    now apply (Hfresh v).
  - (* register: session *)
    intros i [= <-]. rewrite map_app. apply in_or_app. right. now left.
  - (* register: post authors *)
    intros q Hq. destruct (Hpauth q Hq) as (Ha & v & Hv & Hv1).
    split; [exact Ha|]. exists v. split; [apply in_or_app; now left | exact Hv1].
  - (* register: comment authors *)
    intros c Hc. destruct (Hcauth c Hc) as (v & Hv & Hcv).
    exists v. split; [apply in_or_app; now left | exact Hcv].
  - (* publish: ids *)
    rewrite map_app. simpl. apply NoDup_snoc; [exact Hpids|].
    rewrite Hid. apply next_rowid_fresh.
  - (* publish: titles *)
    rewrite map_app. simpl. apply NoDup_snoc; [exact Htitles|].
    intros Hin. apply in_map_iff in Hin. destruct Hin as (q & Hq & Hqin).
    now apply (Hfresh q).
  - (* publish: authors *)
    intros q Hq. apply in_app_or in Hq. destruct Hq as [Hq | [<- | []]]; [auto|].
    unfold is_administrator in Hadm. apply Z.eqb_eq in Hadm.
    split; [now rewrite Hauth, Hadm|].
    exists admin. split; [apply (current_user_stored st admin Hu) | exact Hadm].
  - (* publish: comment targets *)
    intros c i Hc Hi. destruct (Hctgt c i Hc Hi) as (q & Hq & Hqi).
    exists q. split; [apply in_or_app; now left | exact Hqi].
  - (* comment: ids *)
    rewrite map_app. simpl. apply NoDup_snoc; [exact Hcids|].
    rewrite Hid. apply next_rowid_fresh.
  - (* comment: authors *)
    intros c' Hc'. apply in_app_or in Hc'. destruct Hc' as [Hc' | [<- | []]]; [auto|].
    exists u. split; [apply (current_user_stored st u Hu) | exact Hauth].
  - (* comment: targets *)
    intros c' i Hc' Hi. apply in_app_or in Hc'. destruct Hc' as [Hc' | [<- | []]].
    + eauto.
    + destruct Htgt as [Hnone | (q & Hq & Hqi)]; [congruence|].
      exists q. split; [exact Hq | congruence].
  - (* delete: ids *)
    now apply NoDup_map_filter.
  - (* delete: titles *)
    now apply NoDup_map_filter.
  - (* delete: authors *)
    intros q Hq. apply filter_In in Hq. apply Hpauth, Hq.
  - (* delete: comment ids *)
    rewrite map_map.
    rewrite (map_ext (fun c => Comments.id (detach_comment (BlogPost.id p) c)) Comments.id);
      [exact Hcids|].
    intros c. destruct (detach_comment_same (BlogPost.id p) c) as (H & _). exact H.
  - (* delete: comment authors *)
    intros c' Hc'. apply in_map_iff in Hc'. destruct Hc' as (c & <- & Hc).
    destruct (detach_comment_same (BlogPost.id p) c) as (_ & Ha & _).
    rewrite Ha. auto.
  - (* delete: comment targets *)
    intros c' i Hc' Hi. apply in_map_iff in Hc'. destruct Hc' as (c & <- & Hc).
    unfold detach_comment in Hi.
    destruct (Comments.post_id c) as [j|] eqn:Hj; [|congruence].
    destruct (Z.eqb_spec j (BlogPost.id p)) as [->|Hne]; simpl in Hi; [discriminate|].
    rewrite Hj in Hi. injection Hi as ->.
    destruct (Hctgt c i Hc Hj) as (q & Hq & Hqi).
    exists q. split; [|exact Hqi].
    apply filter_In. split; [exact Hq|].
    apply negb_true_iff. apply Z.eqb_neq. congruence.
Qed.

Lemma initial_consistent : consistent initial.
Proof.
  constructor; simpl; try constructor; try contradiction; discriminate.
Qed.

Lemma reachable_consistent (st : App) : reachable st -> consistent st.
Proof.
  induction 1 as [|st r _ IH].
  - apply initial_consistent.
  - apply (transition_consistent st); [exact IH | apply dispatch_transition].
Qed.

(** A key that no two rows share finds the row that holds it. *)
Lemma find_unique {A K} (key : A -> K) (eqb : K -> K -> bool)
      (eqb_eq : forall a b, eqb a b = true <-> a = b) (l : list A) (u : A) :
  NoDup (map key l) -> In u l ->
  find (fun v => eqb (key v) (key u)) l = Some u.
Proof.
  induction l as [|a l IH]; simpl; intros Hnd Hin; [contradiction|].
  inversion Hnd as [|? ? Hnot Hrest]; subst.
  destruct Hin as [-> | Hin].
  - now rewrite (proj2 (eqb_eq (key u) (key u)) eq_refl).
  - destruct (eqb (key a) (key u)) eqn:E; [|auto].
    apply eqb_eq in E. exfalso. apply Hnot. rewrite E. now apply in_map.
Qed.

Lemma NoDup_rowids (n : nat) : NoDup (rowids n).
Proof.
  induction n as [|n IH]; [constructor|].
  rewrite <- rowids_snoc. apply NoDup_snoc; [exact IH|].
  intros Hin. apply in_rowids in Hin. lia.
Qed.

(** X1. In every state the application reaches no two users share an id or
    an email, so both lookups of main.py give back the row they are asked
    for: [load_user] on a stored user's id, and the [filter_by(email=...)]
    of [login] on a stored user's email. *)
Theorem stored_users_are_found (st : App) (u : User.t) :
  reachable st ->
  In u (users (db st)) ->
  load_user (User.id u) (db st) = Some u /\
  User_query_filter_by_email_first (User.email u) (db st) = Some u.
Proof.
  intros Hreach Hin. destruct (reachable_consistent st Hreach) as [Hids Hemails _ _ _ _ _ _ _].
  split.
  - unfold load_user, User_query_get.
    apply (find_unique User.id Z.eqb Z.eqb_eq); [|exact Hin].
    rewrite Hids. apply NoDup_rowids.
  - unfold User_query_filter_by_email_first.
    now apply (find_unique User.email String.eqb String.eqb_eq).
Qed.

(** X2. In every state the application reaches the id the session holds is
    the id of a stored user: [current_user] is the anonymous user only when
    nobody is logged in, never because the id has no row. *)
Theorem session_user_is_stored (st : App) (i : Z) :
  reachable st ->
  user_id (session st) = Some i ->
  exists u, current_user_of st = Some u /\ User.id u = i /\ In u (users (db st)).
Proof.
  intros Hreach Hi. pose proof (reachable_consistent st Hreach) as Hc.
  pose proof (session_user Hc Hi) as Hin.
  apply in_map_iff in Hin. destruct Hin as (u & Hu & Hin).
  exists u. split; [|split; assumption].
  unfold current_user_of. rewrite Hi, <- Hu.
  unfold load_user, User_query_get.
  apply (find_unique User.id Z.eqb Z.eqb_eq); [|exact Hin].
  rewrite (user_ids Hc). apply NoDup_rowids.
Qed.

(** X3. In every state the application reaches every stored post was
    published by the administrator: its [author_id] is 1 and user 1 is
    stored; and no two stored posts share an id or a title. *)
Theorem posts_are_the_administrators (st : App) :
  reachable st ->
  (forall p, In p (blog_posts (db st)) ->
     BlogPost.author_id p = Some 1 /\
     exists admin, In admin (users (db st)) /\ User.id admin = 1 /\
                   is_administrator admin = true) /\
  NoDup (map BlogPost.id (blog_posts (db st))) /\
  NoDup (map BlogPost.title (blog_posts (db st))).
Proof.
  intros Hreach. pose proof (reachable_consistent st Hreach) as Hc.
  split; [|split; [apply (post_ids Hc) | apply (post_titles Hc)]].
  intros p Hp. destruct (post_authors Hc p Hp) as (Ha & u & Hu & Hu1).
  split; [exact Ha|]. exists u. repeat split; try assumption.
  unfold is_administrator. now apply Z.eqb_eq.
Qed.

(** X4. In every state the application reaches the comments table keeps its
    references: the author of every comment is a stored user, the target of
    every comment is NULL or the id of a stored post, and no two comments
    share an id. *)
Theorem comments_reference_stored_rows (st : App) :
  reachable st ->
  (forall c, In c (comments (db st)) ->
     (exists u, In u (users (db st)) /\ Comments.author_id c = Some (User.id u)) /\
     (Comments.post_id c = None \/
      exists p, In p (blog_posts (db st)) /\ Comments.post_id c = Some (BlogPost.id p))) /\
  NoDup (map Comments.id (comments (db st))).
Proof.
  intros Hreach. pose proof (reachable_consistent st Hreach) as Hc.
  split; [|apply (comment_ids Hc)].
  intros c Hin. split; [apply (comment_authors Hc c Hin)|].
  destruct (Comments.post_id c) as [i|] eqn:Hi; [right | now left].
  destruct (comment_targets Hc c Hin Hi) as (p & Hp & Hpi).
  exists p. split; [exact Hp | now rewrite Hpi].
Qed.

(** X5. A request from a session that is not the administrator's (nobody
    logged in, or a user whose id is not 1) leaves the posts table as it
    was, whatever the rule, the method and the submitted form. *)
Theorem only_administrator_changes_posts (r : HTTPRequest) (st : App) :
  (forall u, current_user_of st = Some u -> is_administrator u = false) ->
  blog_posts (db (snd (dispatch_request r st))) = blog_posts (db st).
Proof.
  intros Hno. destruct (dispatch_transition r st)
    as [s _ | u _ _ | admin p Hu Hadm _ _ _ | u c _ _ _ _ | admin p Hu Hadm _];
    try reflexivity;
    apply Hno in Hu; congruence.
Qed.

(** X6. No request removes or rewrites a user, and no request removes a
    comment or changes its id, author or text: the users table after a
    request is the table before with at most one row appended, and the
    comments table after is the table before, row by row up to a target set
    to NULL, with at most one row appended. *)
Theorem requests_keep_users_and_comments (r : HTTPRequest) (st : App) :
  (exists new_users,
      users (db (snd (dispatch_request r st))) = (users (db st) ++ new_users)%list /\
      (length new_users <= 1)%nat) /\
  (exists kept new_comments,
      comments (db (snd (dispatch_request r st))) = (kept ++ new_comments)%list /\
      Forall2 same_comment_up_to_target (comments (db st)) kept /\
      (length new_comments <= 1)%nat).
Proof.
  assert (Hrefl : forall l, Forall2 same_comment_up_to_target l l).
  { induction l as [|c l IH]; constructor; [|exact IH].
    unfold same_comment_up_to_target. auto. }
  destruct (dispatch_transition r st)
    as [s _ | u _ _ | admin p _ _ _ _ _ | u c _ _ _ _ | admin p _ _ _]; simpl.
  - split; [exists []; rewrite app_nil_r; auto|].
    exists (comments (db st)), []. rewrite app_nil_r. auto.
  - split; [exists [u]; auto|].
    exists (comments (db st)), []. rewrite app_nil_r. auto.
  - split; [exists []; rewrite app_nil_r; auto|].
    exists (comments (db st)), []. rewrite app_nil_r. auto.
  - split; [exists []; rewrite app_nil_r; auto|].
    exists (comments (db st)), [c]. auto.
  - split; [exists []; rewrite app_nil_r; auto|].
    exists (map (detach_comment (BlogPost.id p)) (comments (db st))), [].
    rewrite app_nil_r. repeat split; [|simpl; lia].
    induction (comments (db st)) as [|c l IH]; simpl; constructor; [|exact IH].
    apply detach_comment_same.
Qed.

(** X7. A GET request changes the database only on the rule of
    [delete_post]: on every other rule the three tables after a GET are the
    tables before it. *)
Theorem get_changes_database_only_by_delete
        (rule : Rule) (f : FormData) (s t : string) (st : App) :
  db (snd (dispatch_request (mkHTTP GET rule f s t) st)) = db st \/
  exists post_id, rule = rule_delete_post post_id.
Proof.
  destruct rule; try (right; eexists; reflexivity); left;
    views_unfold; unfold prefilled, is_submitted; py_unfold; simpl;
    py_cases; reflexivity.
Qed.

(** X8. The two decorators in the order main.py stacks them: with nobody
    logged in, [add_new_post], [edit_post] and [delete_post] answer 401 and
    change nothing; the [current_user.id] of [admin_only], which the
    anonymous user lacks, is never evaluated. *)
Theorem gated_views_refuse_anonymous (st : App) :
  current_user_of st = None ->
  (forall request, add_new_post request st = (Raise (HTTPException 401), st)) /\
  (forall post_id request, edit_post post_id request st = (Raise (HTTPException 401), st)) /\
  (forall post_id request, delete_post post_id request st = (Raise (HTTPException 401), st)).
Proof.
  intros Hu. unfold add_new_post, edit_post, delete_post.
  repeat split; intros; now apply gate_anonymous.
Qed.

(** ** add_new_post, and the edge cases of delete_post and edit_post *)

(** The submit branch of [add_new_post] for the administrator. *)
Lemma add_new_post_submitted
      (st : App) (request : Request CreatePostFormData) (admin : User.t) :
  current_user_of st = Some admin ->
  is_administrator admin = true ->
  validate_on_submit CreatePostForm_validate request = true ->
  add_new_post request st =
  let f := form request in
  if existsb (fun p => String.eqb (BlogPost.title p) (pf_title f)) (blog_posts (db st))
  then (Raise (IntegrityError "blog_posts.title"), st)
  else
    (Ok (redirect url_get_all_posts),
     mkApp (mkDB (users (db st))
                 (blog_posts (db st)
                  ++ [BlogPost.mk (next_rowid (map BlogPost.id (blog_posts (db st))))
                                  (Some (User.id admin)) (pf_title f) (pf_subtitle f)
                                  (today request) (pf_body f) (pf_img_url f)])
                 (comments (db st)))
           (session st)).
Proof.
  intros Hu Hadm Hv. unfold add_new_post.
  rewrite (gate_authenticated _ _ _ _ Hu), Hadm.
  unfold add_new_post__wrapped, commit_new_post. rewrite Hv. py_unfold.
  cbv beta iota zeta. rewrite Hu. cbv beta iota.
  destruct (existsb _ _); reflexivity.
Qed.

(** X9. [add_new_post], submitted by the administrator with a form that
    validates: a title some stored post already has raises the integrity
    error of the UNIQUE constraint on blog_posts.title and changes nothing;
    any other title stores one new post with the submitted fields, the
    administrator as author, today's date and an id no stored post has. *)
Theorem add_new_post_duplicate_or_fresh
        (st : App) (request : Request CreatePostFormData) (admin : User.t) :
  current_user_of st = Some admin ->
  is_administrator admin = true ->
  validate_on_submit CreatePostForm_validate request = true ->
  ((exists q, In q (blog_posts (db st)) /\ BlogPost.title q = pf_title (form request)) ->
   add_new_post request st = (Raise (IntegrityError "blog_posts.title"), st))
  /\
  ((forall q, In q (blog_posts (db st)) -> BlogPost.title q <> pf_title (form request)) ->
   exists p,
     add_new_post request st =
       (Ok (redirect url_get_all_posts),
        mkApp (mkDB (users (db st)) (blog_posts (db st) ++ [p]) (comments (db st)))
              (session st))
     /\ ~ In (BlogPost.id p) (map BlogPost.id (blog_posts (db st)))
     /\ BlogPost.author_id p = Some (User.id admin)
     /\ BlogPost.date p = today request
     /\ BlogPost.title p = pf_title (form request)
     /\ BlogPost.subtitle p = pf_subtitle (form request)
     /\ BlogPost.body p = pf_body (form request)
     /\ BlogPost.img_url p = pf_img_url (form request)).
Proof.
  intros Hu Hadm Hv.
  split; intros H; rewrite (add_new_post_submitted st request admin Hu Hadm Hv); cbv zeta.
  - assert (E : existsb (fun p => String.eqb (BlogPost.title p) (pf_title (form request)))
                        (blog_posts (db st)) = true).
    { destruct H as (q & Hq & Ht). apply existsb_exists. exists q.
      split; [exact Hq | now apply String.eqb_eq]. }
    now rewrite E.
  - assert (E : existsb (fun p => String.eqb (BlogPost.title p) (pf_title (form request)))
                        (blog_posts (db st)) = false).
    { destruct (existsb _ (blog_posts (db st))) eqn:E; [|reflexivity].
      apply existsb_exists in E. destruct E as (q & Hq & Ht).
      apply String.eqb_eq in Ht. now apply H in Hq. }
    rewrite E. eexists. split; [reflexivity|]. simpl. repeat split.
    apply next_rowid_fresh.
Qed.

(** X10. [delete_post], requested by the administrator for an id no stored
    post has, raises and changes nothing: for an id that fits the INTEGER
    column [BlogPost.query.get] gives [None] and [db.session.delete(None)]
    raises UnmappedInstanceError; for an id that does not fit, the lookup
    itself raises OverflowError and [db.session.delete] is not reached. *)
Theorem delete_post_missing
        (st : App) (post_id : Z) (request : Request unit) (admin : User.t) :
  current_user_of st = Some admin ->
  is_administrator admin = true ->
  BlogPost_query_get post_id (db st) = None ->
  (- 2 ^ 63 <= post_id < 2 ^ 63 ->
   delete_post post_id request st = (Raise UnmappedInstanceError, st)) /\
  (2 ^ 63 <= post_id ->
   delete_post post_id request st = (Raise OverflowError, st)).
Proof.
  intros Hu Hadm Hq. unfold delete_post.
  rewrite (gate_authenticated _ _ _ _ Hu), Hadm.
  unfold delete_post__wrapped, commit_delete_post. split.
  - intros Hfits. unfold bind at 1.
    rewrite (BlogPost_query_get_bound_fits post_id st Hfits), Hq. reflexivity.
  - intros Hbig. unfold bind at 1.
    now rewrite (BlogPost_query_get_bound_overflow post_id st Hq Hbig).
Qed.

(** X11. [edit_post], opened (GET) by the administrator, changes nothing:
    for a stored post it renders the form filled with the post's title,
    subtitle, image URL and body; for an id no stored post has, reading
    [post.title] on [None] raises AttributeError when the id fits the INTEGER
    column, and the lookup itself raises OverflowError when it does not. *)
Theorem edit_post_opens_prefilled_form
        (st : App) (post_id : Z) (f : CreatePostFormData) (s t : string) (admin : User.t) :
  current_user_of st = Some admin ->
  is_administrator admin = true ->
  (forall post,
      BlogPost_query_get post_id (db st) = Some post ->
      edit_post post_id (mkRequest GET f s t) st =
        (Ok (render_template
               (make_post_html
                  (mkCreatePostForm (BlogPost.title post) (BlogPost.subtitle post)
                                    (BlogPost.img_url post) (BlogPost.body post)))), st)) /\
  (BlogPost_query_get post_id (db st) = None ->
   - 2 ^ 63 <= post_id < 2 ^ 63 ->
   edit_post post_id (mkRequest GET f s t) st = (Raise (AttributeError "title"), st)) /\
  (BlogPost_query_get post_id (db st) = None ->
   2 ^ 63 <= post_id ->
   edit_post post_id (mkRequest GET f s t) st = (Raise OverflowError, st)).
Proof.
  intros Hu Hadm. unfold edit_post.
  rewrite (gate_authenticated _ _ _ _ Hu), Hadm.
  unfold edit_post__wrapped, prefilled, validate_on_submit, is_submitted.
  repeat split.
  - intros post Hq. unfold bind at 1.
    rewrite (BlogPost_query_get_bound_stored post_id st post Hq), Hq. reflexivity.
  - intros Hq Hfits. unfold bind at 1.
    rewrite (BlogPost_query_get_bound_fits post_id st Hfits), Hq. reflexivity.
  - intros Hq Hbig. unfold bind at 1.
    now rewrite (BlogPost_query_get_bound_overflow post_id st Hq Hbig).
Qed.

(** ** How register, logout and login compose *)

Lemma find_snoc_fresh {A} (f : A -> bool) (l : list A) (x : A) :
  (forall a, In a l -> f a = false) -> f x = true -> find f (l ++ [x]) = Some x.
Proof.
  intros Hl Hx. induction l as [|a l IH]; simpl.
  - now rewrite Hx.
  - rewrite (Hl a) by now left. apply IH. intros b Hb. apply Hl. now right.
Qed.

(** X12. Register, log out, log in.  After a registration with an unused
    email and a logout, a login with the same email and password (both
    forms validating, and [check_password_hash] accepting the password
    against the hash [generate_password_hash] made of it) finds the new user,
    binds the session to that user again and redirects to the index: the
    state is the one the registration left. *)
Theorem register_logout_login
        (st : App) (e p n : string) (salt today salt' today' : string)
        (logout_request : Request unit) :
  RegisterForm_validate (mkRegisterForm e p n) = true ->
  LoginForm_validate (mkLoginForm e p) = true ->
  check_password_hash (generate_password_hash p salt) p = true ->
  (forall u, In u (users (db st)) -> User.email u <> e) ->
  let registered :=
    snd (register (mkRequest POST (mkRegisterForm e p n) salt today) st) in
  let logged_out := snd (logout logout_request registered) in
  current_user_of logged_out = None /\
  login (mkRequest POST (mkLoginForm e p) salt' today') logged_out
    = (Ok (redirect url_get_all_posts), registered).
Proof.
  intros Hrv Hlv Hpw Hfresh registered logged_out.
  assert (Hsub : validate_on_submit RegisterForm_validate
                   (mkRequest POST (mkRegisterForm e p n) salt today) = true)
    by (unfold validate_on_submit; simpl; exact Hrv).
  assert (Hreg : registered =
    mkApp (mkDB (users (db st)
                 ++ [User.mk (next_rowid (map User.id (users (db st)))) e
                             (generate_password_hash p salt) n])
                (blog_posts (db st)) (comments (db st)))
          (mkSession (Some (next_rowid (map User.id (users (db st)))))
                     (flashes (session st)))).
  { unfold registered. rewrite (register_submitted st _ Hsub). cbv zeta. simpl.
    now rewrite (existsb_email_false _ _ Hfresh). }
  split; [reflexivity|].
  assert (Hlsub : validate_on_submit LoginForm_validate
                    (mkRequest POST (mkLoginForm e p) salt' today') = true)
    by (unfold validate_on_submit; simpl; exact Hlv).
  rewrite (login_known_email logged_out _
             (User.mk (next_rowid (map User.id (users (db st)))) e
                      (generate_password_hash p salt) n) Hlsub).
  - simpl. rewrite Hpw. unfold logged_out. rewrite Hreg. reflexivity.
  - unfold logged_out. rewrite Hreg. simpl.
    unfold User_query_filter_by_email_first. simpl.
    apply find_snoc_fresh.
    + intros a Ha. apply String.eqb_neq. now apply Hfresh.
    + simpl. apply String.eqb_refl.
Qed.

(** ** Passwords and the page of a new comment *)

(** The row a request adds to the users table holds a hash. *)
Lemma dispatch_users_hashed (r : HTTPRequest) (st : App) :
  users (db (snd (dispatch_request r st))) = users (db st) \/
  exists i e password salt n,
    users (db (snd (dispatch_request r st)))
    = (users (db st) ++ [User.mk i e (generate_password_hash password salt) n])%list.
Proof.
  destruct r as [m rule f s t].
  views_unfold; py_unfold; simpl.
  destruct rule; py_cases; py_inv; simpl; auto.
  right. do 5 eexists. reflexivity.
Qed.

(** X13. In every state the application reaches, the password column of
    every stored user holds a value [generate_password_hash] returned for
    some password and salt: no view stores a submitted password itself. *)
Theorem stored_passwords_are_hashes (st : App) (u : User.t) :
  reachable st ->
  In u (users (db st)) ->
  exists password salt, User.password u = generate_password_hash password salt.
Proof.
  intros Hreach. revert u. induction Hreach as [|st r _ IH]; intros u Hin.
  - contradiction.
  - destruct (dispatch_users_hashed r st) as [E | (i & e & pw & salt & n & E)];
      rewrite E in Hin.
    + now apply IH.
    + apply in_app_or in Hin. destruct Hin as [Hin | [<- | []]].
      * now apply IH.
      * exists pw, salt. reflexivity.
Qed.

(** X14. A comment (a submitted form that validates) from a logged-in user
    on a stored post is stored with that post's id as its target, and the
    comment list handed to the page is the one read before the insert: the
    new comment is not in it. *)
Theorem new_comment_targets_post_and_is_not_listed
        (st : App) (post_id : Z) (request : Request CommentFormData)
        (u : User.t) (p : BlogPost.t) :
  validate_on_submit CommentForm_validate request = true ->
  current_user_of st = Some u ->
  BlogPost_query_get post_id (db st) = Some p ->
  exists c,
    comments (db (snd (show_post post_id request st))) = (comments (db st) ++ [c])%list /\
    Comments.post_id c = Some post_id /\
    fst (show_post post_id request st)
      = Ok (render_template (post_html (Some p) (comments (db st)) (form request))) /\
    ~ In c (comments (db st)).
Proof.
  intros Hv Hu Hq.
  rewrite (show_post_authenticated st post_id request u
             (BlogPost_query_get_bound_stored post_id st p Hq) Hv Hu).
  rewrite Hq. simpl. eexists. split; [reflexivity|]. simpl.
  assert (Hid : BlogPost.id p = post_id).
  { unfold BlogPost_query_get in Hq. apply find_some in Hq. now apply Z.eqb_eq. }
  split; [now rewrite Hid|]. split; [reflexivity|].
  intros Hin. apply (in_map Comments.id) in Hin. simpl in Hin.
  now apply next_rowid_fresh in Hin.
Qed.

(** ** Who can write, and who is logged in after a login *)

(** X15. The only write a client that is not logged in can cause is a
    registration: after any request from such a session the database is the
    one before, or the one before with one user appended and the posts and
    comments untouched. *)
Theorem anonymous_writes_only_by_registering (r : HTTPRequest) (st : App) :
  current_user_of st = None ->
  db (snd (dispatch_request r st)) = db st \/
  exists u,
    db (snd (dispatch_request r st))
    = mkDB (users (db st) ++ [u]) (blog_posts (db st)) (comments (db st)).
Proof.
  intros Hanon. destruct (dispatch_transition r st)
    as [s _ | u _ _ | admin p Hu _ _ _ _ | u c Hu _ _ _ | admin p Hu _ _];
    try congruence.
  - now left.
  - right. now exists u.
Qed.

Lemma load_user_of_stored (st : App) (u : User.t) :
  consistent st -> In u (users (db st)) -> load_user (User.id u) (db st) = Some u.
Proof.
  intros Hc Hin. unfold load_user, User_query_get.
  apply (find_unique User.id Z.eqb Z.eqb_eq); [|exact Hin].
  rewrite (user_ids Hc). apply NoDup_rowids.
Qed.

(** X16. In every state the application reaches, a login that succeeds (the
    form validates, a stored user has the email, [check_password_hash]
    accepts) makes [current_user] that very user, whoever was logged in
    before. *)
Theorem login_binds_current_user
        (st : App) (request : Request LoginFormData) (user : User.t) :
  reachable st ->
  validate_on_submit LoginForm_validate request = true ->
  User_query_filter_by_email_first (lf_email (form request)) (db st) = Some user ->
  check_password_hash (User.password user) (lf_password (form request)) = true ->
  fst (login request st) = Ok (redirect url_get_all_posts) /\
  current_user_of (snd (login request st)) = Some user.
Proof.
  intros Hreach Hv Hq Hpw. rewrite (login_known_email st request user Hv Hq), Hpw.
  split; [reflexivity|]. unfold current_user_of. simpl.
  apply load_user_of_stored; [now apply reachable_consistent|].
  unfold User_query_filter_by_email_first in Hq. apply find_some in Hq. apply Hq.
Qed.

(** X17. A registration that succeeds (the form validates, no stored user
    has the email) logs the new user in: [current_user] after it is the row
    just stored, with the submitted email and name. *)
Theorem register_binds_current_user
        (st : App) (request : Request RegisterFormData) :
  validate_on_submit RegisterForm_validate request = true ->
  (forall u, In u (users (db st)) -> User.email u <> rf_email (form request)) ->
  exists u,
    current_user_of (snd (register request st)) = Some u /\
    In u (users (db (snd (register request st)))) /\
    User.email u = rf_email (form request) /\
    User.name u = rf_name (form request).
Proof.
  intros Hv Hfresh. rewrite (register_submitted st request Hv). cbv zeta.
  rewrite (existsb_email_false _ _ Hfresh). eexists. simpl.
  split; [|split; [apply in_or_app; right; left; reflexivity | split; reflexivity]].
  unfold current_user_of, load_user, User_query_get. simpl.
  apply find_snoc_fresh.
  - intros a Ha. apply Z.eqb_neq. intros E.
    apply (next_rowid_fresh (map User.id (users (db st)))).
    rewrite <- E. now apply in_map.
  - simpl. apply Z.eqb_refl.
Qed.

(** X18. In every state the application reaches the users table lists the
    users in the order they registered with the ids 1, 2, 3, ...: the row at
    position k (from 0) has id k + 1. *)
Theorem user_ids_follow_registration_order (st : App) (k : nat) (u : User.t) :
  reachable st ->
  nth_error (users (db st)) k = Some u ->
  User.id u = Z.of_nat (S k).
Proof.
  intros Hreach Hk. pose proof (reachable_user_ids st Hreach) as Hids.
  assert (Hlt : (k < length (users (db st)))%nat)
    by (apply nth_error_Some; congruence).
  apply (map_nth_error User.id) in Hk. rewrite Hids in Hk.
  apply (nth_error_nth _ _ 0) in Hk. rewrite <- Hk. unfold rowids.
  change 0 with (Z.of_nat 0). rewrite map_nth, seq_nth by exact Hlt. reflexivity.
Qed.

End Properties.

(* ------------------------------------------------------------------ *)
(** * The properties on the worked scenario *)

(** With Alice and Bob registered and Bob logged in: the smallest id is
    Alice's, Alice is the administrator and the first row, Bob is not, and
    Bob's request to create a post is answered 403. *)
Lemma admin_is_first_registered_witness :
  reachable (imported := sample_imports) two_users /\
  min_user_id (users (db two_users)) = Some 1 /\
  hd_error (users (db two_users)) = Some (User.mk 1 "alice@x.com" "s$pw1" "Alice") /\
  forall request,
    add_new_post (imported := sample_imports) request two_users
    = (Raise (HTTPException 403), two_users).
Proof.
  assert (R : reachable (imported := sample_imports) two_users).
  { unfold two_users, serve. repeat apply reachable_request. apply reachable_initial. }
  destruct (admin_is_first_registered two_users R) as [Hfirst Hgate].
  split; [exact R|].
  destruct (Hfirst (User.mk 1 "alice@x.com" "s$pw1" "Alice")) as [Hmin Hhd].
  { vm_compute. left. reflexivity. }
  split; [apply Hmin; reflexivity|].
  split; [apply Hhd; reflexivity|].
  exact (proj1 (Hgate (User.mk 2 "bob@x.com" "s$pw2" "Bob") eq_refl)).
Defined.

(** A second registration with Alice's email raises and changes nothing. *)
Lemma register_duplicate_or_fresh_witness :
  register (imported := sample_imports)
           (mkRequest POST (mkRegisterForm "alice@x.com" "other" "Eve") "s" "d") two_users
  = (Raise (IntegrityError "users.email"), two_users).
Proof.
  apply (proj1 (register_duplicate_or_fresh
                  (imported := sample_imports) two_users
                  (mkRequest POST (mkRegisterForm "alice@x.com" "other" "Eve") "s" "d")
                  eq_refl)).
  exists (User.mk 1 "alice@x.com" "s$pw1" "Alice").
  split; [vm_compute; left; reflexivity | reflexivity].
Defined.


(** An unknown email raises; Alice's email with a wrong password flashes. *)
Lemma login_failures_differ_witness :
  login (imported := sample_imports)
        (mkRequest POST (mkLoginForm "nobody@x.com" "pw") "s" "d") two_users
  = (Raise (AttributeError "password"), two_users)
  /\
  login (imported := sample_imports)
        (mkRequest POST (mkLoginForm "alice@x.com" "wrong") "s" "d") two_users
  = (Ok (redirect url_login),
     mkApp (db two_users) (mkSession (Some 2) ["Try again please"])).
Proof.
  split.
  - exact (login_failures_differ
             (imported := sample_imports) two_users
             (mkRequest POST (mkLoginForm "nobody@x.com" "pw") "s" "d") eq_refl).
  - exact (login_failures_differ
             (imported := sample_imports) two_users
             (mkRequest POST (mkLoginForm "alice@x.com" "wrong") "s" "d")
             eq_refl eq_refl).
Defined.

(** A comment from the visitor who is not logged in raises. *)
Lemma show_post_comment_by_session_witness :
  show_post (imported := sample_imports) 1
            (mkRequest POST (mkCommentForm "hi") "s" "d") anonymous_visitor
  = (Raise (AttributeError "_sa_instance_state"), anonymous_visitor).
Proof.
  exact (show_post_comment_by_session
           (imported := sample_imports) anonymous_visitor 1
           (mkRequest POST (mkCommentForm "hi") "s" "d")
           (proj1 (fits_INTEGER_iff 1) eq_refl) eq_refl).
Defined.

(** The page of post 7, which does not exist, lists Bob's comment on post 1. *)
Lemma show_post_lists_all_comments_witness :
  show_post (imported := sample_imports) 7
            (mkRequest GET (mkCommentForm "") "s" "d") bob_commented
  = (Ok (render_template
           (post_html None [Comments.mk 1 (Some 2) (Some 1) "Nice post"]
                      (mkCommentForm ""))),
     bob_commented).
Proof.
  exact (proj1 (show_post_lists_all_comments
                  (imported := sample_imports) bob_commented 7
                  (proj1 (fits_INTEGER_iff 7) eq_refl))
               (mkCommentForm "") "s" "d").
Defined.

(** Bob's comment on post 7, which does not exist, is stored with no target. *)
Lemma show_post_missing_post_stores_comment_witness :
  show_post (imported := sample_imports) 7
            (mkRequest POST (mkCommentForm "hi") "s" "d") bob_commented
  = (Ok (render_template
           (post_html None (comments (db bob_commented)) (mkCommentForm "hi"))),
     mkApp (mkDB (users (db bob_commented)) (blog_posts (db bob_commented))
                 [Comments.mk 1 (Some 2) (Some 1) "Nice post";
                  Comments.mk 2 (Some 2) None "hi"])
           (session bob_commented)).
Proof.
  exact (show_post_missing_post_stores_comment
           (imported := sample_imports) bob_commented 7
           (mkRequest POST (mkCommentForm "hi") "s" "d")
           (User.mk 2 "bob@x.com" "s$pw2" "Bob")
           (proj1 (fits_INTEGER_iff 7) eq_refl) eq_refl eq_refl eq_refl).
Defined.

(** Alice deletes "Hello": the post is gone, Bob's comment is still there. *)
Lemma delete_post_keeps_comments_witness :
  BlogPost_query_get 1
    (db (snd (delete_post 1
                          (mkRequest GET tt "s" "d") alice_back))) = None /\
  map Comments.id
      (comments (db (snd (delete_post 1
                                      (mkRequest GET tt "s" "d") alice_back))))
  = map Comments.id (comments (db alice_back)).
Proof.
  destruct (delete_post_keeps_comments alice_back 1 (mkRequest GET tt "s" "d")
              (User.mk 1 "alice@x.com" "s$pw1" "Alice")
              (BlogPost.mk 1 (Some 1) "Hello" "first" "November 04, 2026" "text" "img.png")
              eq_refl eq_refl eq_refl)
    as (_ & Hgone & _ & Hids & _).
  split; [exact Hgone | exact Hids].
Defined.

(** Alice submits a new subtitle for "Hello": 405, and the post is as it was. *)
Example edit_post_scenario :
  let r := http POST (rule_edit_post 1)
                (body_of no_register no_login no_comment
                         (mkCreatePostForm "Hello" "second" "img.png" "text")) in
  dispatch_request (imported := sample_imports) r alice_back
    = (Raise (HTTPException 405), alice_back) /\
  option_map BlogPost.subtitle (BlogPost_query_get 1 (db (serve r alice_back)))
    = Some "first".
Proof. split; reflexivity. Qed.

(* ------------------------------------------------------------------ *)
(** * The further properties on the worked scenario *)

Lemma scenario_reachable :
  reachable (imported := sample_imports) two_users /\
  reachable (imported := sample_imports) bob_commented /\
  reachable (imported := sample_imports) alice_back /\
  reachable (imported := sample_imports) anonymous_visitor.
Proof.
  unfold anonymous_visitor, alice_back, bob_commented, two_users, serve.
  repeat split; repeat apply reachable_request; apply reachable_initial.
Qed.

(** Bob is found by his id and by his email. *)
Lemma stored_users_are_found_witness :
  load_user 2 (db two_users) = Some bob /\
  User_query_filter_by_email_first "bob@x.com" (db two_users) = Some bob.
Proof.
  apply (stored_users_are_found (imported := sample_imports) two_users bob).
  - apply scenario_reachable.
  - vm_compute. right. left. reflexivity.
Defined.

(** Bob's session resolves to Bob's row. *)
Lemma session_user_is_stored_witness :
  exists u, current_user_of bob_commented = Some u /\ User.id u = 2 /\
            In u (users (db bob_commented)).
Proof.
  apply (session_user_is_stored (imported := sample_imports) bob_commented 2).
  - apply scenario_reachable.
  - reflexivity.
Defined.

(** "Hello" is Alice's, and Alice is stored. *)
Lemma posts_are_the_administrators_witness :
  BlogPost.author_id hello = Some 1 /\
  exists admin, In admin (users (db bob_commented)) /\ User.id admin = 1 /\
                is_administrator admin = true.
Proof.
  apply (proj1 (posts_are_the_administrators
                  (imported := sample_imports) bob_commented
                  (proj1 (proj2 scenario_reachable)))).
  vm_compute. left. reflexivity.
Defined.

(** Bob's comment has a stored author and a stored target. *)
Lemma comments_reference_stored_rows_witness :
  NoDup (map Comments.id (comments (db bob_commented))).
Proof.
  apply (proj2 (comments_reference_stored_rows
                  (imported := sample_imports) bob_commented
                  (proj1 (proj2 scenario_reachable)))).
Defined.

(** Bob, logged in, submits a post: the posts table stays empty. *)
Lemma only_administrator_changes_posts_witness :
  blog_posts (db (serve (publish "Mine" "sub" "img.png" "text") two_users)) = [].
Proof.
  apply (only_administrator_changes_posts
           (imported := sample_imports)
           (publish "Mine" "sub" "img.png" "text") two_users).
  intros u Hu. vm_compute in Hu. injection Hu as <-. reflexivity.
Defined.

(** The visitor who is not logged in asks to delete "Hello": 401. *)
Lemma gated_views_refuse_anonymous_witness :
  delete_post 1 (mkRequest GET tt "s" "d") anonymous_visitor
  = (Raise (HTTPException 401), anonymous_visitor).
Proof.
  apply (gated_views_refuse_anonymous (imported := sample_imports) anonymous_visitor).
  reflexivity.
Defined.

(** Alice publishes a second post titled "Hello": the constraint refuses it. *)
Lemma add_new_post_duplicate_or_fresh_witness :
  add_new_post (imported := sample_imports)
               (mkRequest POST (mkCreatePostForm "Hello" "again" "i.png" "t") "s" "d")
               alice_back
  = (Raise (IntegrityError "blog_posts.title"), alice_back).
Proof.
  apply (proj1 (add_new_post_duplicate_or_fresh
                  (imported := sample_imports) alice_back
                  (mkRequest POST (mkCreatePostForm "Hello" "again" "i.png" "t") "s" "d")
                  alice eq_refl eq_refl eq_refl)).
  exists hello. split; [vm_compute; left; reflexivity | reflexivity].
Defined.

(** Alice asks to delete post 7, which does not exist, and then a post whose
    id is 2^63. *)
Lemma delete_post_missing_witness :
  delete_post 7 (mkRequest GET tt "s" "d") alice_back
  = (Raise UnmappedInstanceError, alice_back) /\
  delete_post (2 ^ 63) (mkRequest GET tt "s" "d") alice_back
  = (Raise OverflowError, alice_back).
Proof.
  split.
  - exact (proj1 (delete_post_missing alice_back 7 (mkRequest GET tt "s" "d") alice
                                      eq_refl eq_refl eq_refl)
                 (proj1 (fits_INTEGER_iff 7) eq_refl)).
  - exact (proj2 (delete_post_missing alice_back (2 ^ 63) (mkRequest GET tt "s" "d") alice
                                      eq_refl eq_refl eq_refl)
                 (Z.le_refl (2 ^ 63))).
Defined.

(** Alice opens the edit form of "Hello", and then of a post whose id is 2^63. *)
Lemma edit_post_opens_prefilled_form_witness :
  edit_post (imported := sample_imports) 1 (mkRequest GET no_post "s" "d") alice_back
  = (Ok (render_template
           (make_post_html (mkCreatePostForm "Hello" "first" "img.png" "text"))),
     alice_back) /\
  edit_post (imported := sample_imports) 7 (mkRequest GET no_post "s" "d") alice_back
  = (Raise (AttributeError "title"), alice_back) /\
  edit_post (imported := sample_imports) (2 ^ 63) (mkRequest GET no_post "s" "d") alice_back
  = (Raise OverflowError, alice_back).
Proof.
  split; [|split].
  - exact (proj1 (edit_post_opens_prefilled_form
                    (imported := sample_imports) alice_back 1 no_post "s" "d" alice
                    eq_refl eq_refl)
                 hello eq_refl).
  - exact (proj1 (proj2 (edit_post_opens_prefilled_form
                           (imported := sample_imports) alice_back 7 no_post "s" "d" alice
                           eq_refl eq_refl))
                 eq_refl (proj1 (fits_INTEGER_iff 7) eq_refl)).
  - exact (proj2 (proj2 (edit_post_opens_prefilled_form
                           (imported := sample_imports) alice_back (2 ^ 63) no_post
                           "s" "d" alice eq_refl eq_refl))
                 eq_refl (Z.le_refl (2 ^ 63))).
Defined.

(** Carol registers in the empty database, logs out and logs in again. *)
Lemma register_logout_login_witness :
  login (imported := sample_imports)
        (mkRequest POST (mkLoginForm "carol@x.com" "pw") "s2" "d2")
        (snd (logout (mkRequest GET tt "s1" "d1")
                     (snd (register (imported := sample_imports)
                                    (mkRequest POST (mkRegisterForm "carol@x.com" "pw" "Carol")
                                               "s" "d")
                                    initial))))
  = (Ok (redirect url_get_all_posts),
     snd (register (imported := sample_imports)
                   (mkRequest POST (mkRegisterForm "carol@x.com" "pw" "Carol") "s" "d")
                   initial)).
Proof.
  apply (proj2 (register_logout_login
                  (imported := sample_imports) initial "carol@x.com" "pw" "Carol"
                  "s" "d" "s2" "d2" (mkRequest GET tt "s1" "d1")
                  eq_refl eq_refl eq_refl (fun u (H : In u []) => match H with end))).
Defined.

(** Alice's stored password is a hash. *)
Lemma stored_passwords_are_hashes_witness :
  exists password salt, User.password alice = sample_hash password salt.
Proof.
  apply (stored_passwords_are_hashes (imported := sample_imports) two_users alice).
  - apply scenario_reachable.
  - vm_compute. left. reflexivity.
Defined.

(** Bob comments on "Hello" a second time. *)
Lemma new_comment_targets_post_and_is_not_listed_witness :
  exists c,
    comments (db (snd (show_post (imported := sample_imports) 1
                                 (mkRequest POST (mkCommentForm "again") "s" "d")
                                 bob_commented)))
    = (comments (db bob_commented) ++ [c])%list /\
    Comments.post_id c = Some 1 /\
    fst (show_post (imported := sample_imports) 1
                   (mkRequest POST (mkCommentForm "again") "s" "d") bob_commented)
    = Ok (render_template
            (post_html (Some hello) (comments (db bob_commented)) (mkCommentForm "again"))) /\
    ~ In c (comments (db bob_commented)).
Proof.
  exact (new_comment_targets_post_and_is_not_listed
           (imported := sample_imports) bob_commented 1
           (mkRequest POST (mkCommentForm "again") "s" "d") bob hello
           eq_refl eq_refl eq_refl).
Defined.

(** The visitor who is not logged in submits a comment: nothing is written. *)
Lemma anonymous_writes_only_by_registering_witness :
  db (serve (comment_on 1 "hi") anonymous_visitor) = db anonymous_visitor \/
  exists u,
    db (serve (comment_on 1 "hi") anonymous_visitor)
    = mkDB (users (db anonymous_visitor) ++ [u]) (blog_posts (db anonymous_visitor))
           (comments (db anonymous_visitor)).
Proof.
  exact (anonymous_writes_only_by_registering
           (imported := sample_imports) (comment_on 1 "hi") anonymous_visitor eq_refl).
Defined.

(** With Bob logged in, Alice logs in: the current user is Alice. *)
Lemma login_binds_current_user_witness :
  current_user_of
    (snd (login (imported := sample_imports)
                (mkRequest POST (mkLoginForm "alice@x.com" "pw1") "s" "d") two_users))
  = Some alice.
Proof.
  apply (proj2 (login_binds_current_user
                  (imported := sample_imports) two_users
                  (mkRequest POST (mkLoginForm "alice@x.com" "pw1") "s" "d") alice
                  (proj1 scenario_reachable) eq_refl eq_refl eq_refl)).
Defined.

(** Carol registers with Alice and Bob stored: the current user is Carol. *)
Lemma register_binds_current_user_witness :
  exists u,
    current_user_of
      (snd (register (imported := sample_imports)
                     (mkRequest POST (mkRegisterForm "carol@x.com" "pw" "Carol") "s" "d")
                     two_users)) = Some u /\
    In u (users (db (snd (register (imported := sample_imports)
                                   (mkRequest POST (mkRegisterForm "carol@x.com" "pw" "Carol")
                                              "s" "d")
                                   two_users)))) /\
    User.email u = "carol@x.com" /\ User.name u = "Carol".
Proof.
  apply (register_binds_current_user
           (imported := sample_imports) two_users
           (mkRequest POST (mkRegisterForm "carol@x.com" "pw" "Carol") "s" "d") eq_refl).
  intros u Hu. vm_compute in Hu. destruct Hu as [<- | [<- | []]]; discriminate.
Defined.

(** Bob registered second: his id is 2. *)
Lemma user_ids_follow_registration_order_witness : User.id bob = 2.
Proof.
  exact (user_ids_follow_registration_order
           (imported := sample_imports) two_users 1 bob
           (proj1 scenario_reachable) eq_refl).
Defined.
